(** * common_go: cache adapters and the NSQ client, embedded in Rocq

    The development follows the two packages of the repository:
    [caches] (cache.go) and [nsq] (the client, Publish, Consume and
    RegisterConsumer).  Go values that travel through [interface{}] are a
    tagged union; errors are [option error] with [None] for Go's [nil];
    a run-time panic is an explicit outcome.  The network clients and
    encoding/json are collaborators outside the repository: they appear as
    type classes of operations, with a small in-memory instance of each used
    to evaluate the code on concrete inputs. *)

From Stdlib Require Import ZArith Strings.String Strings.Ascii Strings.Byte List.
From stdpp Require Import base option list strings gmap pretty.

Open Scope string_scope.
Open Scope Z_scope.

(** ** Go data *)

(** [[]byte]. *)
Definition bytes := list byte.

(** The conversions [string(b)] and [[]byte(s)]: both copy the octets. *)
Definition string_of_bytes (b : bytes) : string := string_of_list_byte b.
Definition bytes_of_string (s : string) : bytes := list_byte_of_string s.

(** A non-nil Go [error]; the nil error is [None : option error]. *)
Record error := Error { error_msg : string }.

(** Result of running a piece of Go code: it returns or it panics. *)
Inductive outcome (A : Type) :=
| Returns (a : A)
| Panics (msg : string).
Arguments Returns {A} a.
Arguments Panics {A} msg.

(** The dynamic values an [interface{}] holds in this program. *)
#[warnings="-register-all"]
Inductive GoValue :=
| VNil                                   (* the nil interface *)
| VBool (b : bool)
| VInt (z : Z)                           (* int *)
| VFloat64 (z : Z)                       (* float64 holding the integer z *)
| VString (s : string)
| VBytes (b : bytes)                     (* []byte *)
| VSlice (l : list GoValue)              (* []interface{} *)
| VMap (m : list (string * GoValue))     (* map[string]interface{}, by key *)
| VChan.                                 (* a channel, chan int *)

(** [%T] of a value. *)
Definition type_name (v : GoValue) : string :=
  match v with
  | VNil => "nil"
  | VBool _ => "bool"
  | VInt _ => "int"
  | VFloat64 _ => "float64"
  | VString _ => "string"
  | VBytes _ => "[]uint8"
  | VSlice _ => "[]interface {}"
  | VMap _ => "map[string]interface {}"
  | VChan => "chan int"
  end.

(** The unchecked type assertion [v.(string)]. *)
Definition assert_string (v : GoValue) : outcome string :=
  match v with
  | VString s => Returns s
  | _ => Panics ("interface conversion: interface {} is " ++ type_name v ++ ", not string")
  end.

Definition nil_dereference : string :=
  "runtime error: invalid memory address or nil pointer dereference".

(** [time.Duration] and [time.Time] in nanoseconds. *)
Definition time_Second : Z := 1000000000.

(** ** Package context (standard library), as far as the program uses it *)

Module gocontext.

(** Context keys are compared with [==]: a key of a defined type never
    equals a plain string, whatever its contents. *)
Inductive Key :=
| StringKey (s : string)
| TypedKey (type : string) (name : string).

#[export] Instance Key_eq_dec : EqDecision Key.
Proof. solve_decision. Defined.

Inductive Context :=
| Background
| valueCtx (parent : Context) (key : Key) (val : GoValue)
| cancelCtx (parent : Context)
| timerCtx (parent : Context) (deadline : Z).

(** [ctx.Value(key)]: the innermost binding of [key], nil when there is none. *)
Fixpoint Value (ctx : Context) (key : Key) : GoValue :=
  match ctx with
  | Background => VNil
  | valueCtx parent k v => if decide (k = key) then v else Value parent key
  | cancelCtx parent => Value parent key
  | timerCtx parent _ => Value parent key
  end.

(** [ctx.Deadline()]. *)
Fixpoint Deadline (ctx : Context) : option Z :=
  match ctx with
  | Background => None
  | valueCtx parent _ _ => Deadline parent
  | cancelCtx parent => Deadline parent
  | timerCtx _ d => Some d
  end.

Definition WithValue (parent : Context) (key : Key) (val : GoValue) : Context :=
  valueCtx parent key val.

Definition WithCancel (parent : Context) : Context := cancelCtx parent.

Definition WithDeadline (parent : Context) (d : Z) : Context :=
  match Deadline parent with
  | Some cur => if cur <? d then WithCancel parent else timerCtx parent d
  | None => timerCtx parent d
  end.

(** [context.WithTimeout(parent, timeout)] at time [now]. *)
Definition WithTimeout (parent : Context) (now timeout : Z) : Context :=
  WithDeadline parent (now + timeout).

End gocontext.

Import gocontext.

(** ** Effects *)

Module runtime.

(** What the program does to the outside, in order: lines given to the
    standard logger, sends through a producer handle, calls of a caller's
    [ConsumerFunc], requeues of a message, and the deferred [cancel] of a
    handler's scope. *)
Inductive Event :=
| EvLog (line : string)
| EvPublish (addr topic : string) (body : bytes)
| EvInvoke (ctx : Context) (topic : string)
| EvRequeue (delay : Z)
| EvCancel (ctx : Context).

(** The calls of a [ConsumerFunc] in a trace, and its requeues. *)
Definition invocations (t : list Event) : list (Context * string) :=
  omap (fun e => match e with EvInvoke ctx topic => Some (ctx, topic) | _ => None end) t.

Definition requeues (t : list Event) : list Z :=
  omap (fun e => match e with EvRequeue d => Some d | _ => None end) t.

(** [env] is the state of everything outside the program (broker, network,
    clock, the caller's own data); [trace] is what the program did so far. *)
Record World (Env : Type) := { env : Env; trace : list Event }.
Arguments env {Env} w.
Arguments trace {Env} w.

(** Go code: it runs in a world, returns or panics, and leaves a world. *)
Definition Go (Env A : Type) : Type := World Env -> outcome A * World Env.

Section Monad.
Context {Env : Type}.

Definition ret {A} (a : A) : Go Env A := fun w => (Returns a, w).

Definition bind {A B} (m : Go Env A) (k : A -> Go Env B) : Go Env B :=
  fun w => match m w with
           | (Returns a, w') => k a w'
           | (Panics msg, w') => (Panics msg, w')
           end.

Definition panic {A} (msg : string) : Go Env A := fun w => (Panics msg, w).

Definition emit (e : Event) : Go Env unit :=
  fun w => (Returns tt, {| env := env w; trace := trace w ++ [e] |}).

(** Lifts a pure computation that may panic. *)
Definition eval {A} (o : outcome A) : Go Env A :=
  match o with Returns a => ret a | Panics msg => panic msg end.

(** [defer d(); body]: [d] runs when [body] returns and when it panics. *)
Definition defer {A} (d : Go Env unit) (body : Go Env A) : Go Env A :=
  fun w => let (r, w1) := body w in (r, snd (d w1)).

(** [log.Println(a, b)]: the operands separated by a space. *)
Definition log_Println (a b : string) : Go Env unit := emit (EvLog (a ++ " " ++ b)).

End Monad.

End runtime.

Import runtime.

Notation "'let*' x ':=' m 'in' k" := (bind m (fun x => k))
  (at level 10, x name, m at level 100, k at level 200).

(** ** The go-nsq library, as far as the program uses it *)

Module gonsq.

(** [*nsq.Config]: the configuration [nsq.NewConfig()] returns, a
    [&nsq.Config{}] written by hand, or nil. *)
Inductive Config := NewConfig | ZeroConfig | NilConfig.

(** [config.assertInitialized()], the first thing [nsq.NewProducer] and
    [nsq.NewConsumer] do with their configuration. *)
Definition assertInitialized (config : Config) : outcome unit :=
  match config with
  | NewConfig => Returns tt
  | ZeroConfig => Panics "Config{} must be created with NewConfig()"
  | NilConfig => Panics nil_dereference
  end.

(** [*nsq.Producer]. *)
Record Producer := { producer_addr : string; producer_config : Config }.

(** [*nsq.Message]. *)
Record Message := { Body : bytes; Attempts : Z }.

(** The library's checks and the broker behind it. *)
Class Broker (Env : Type) := {
  (* time.Now() *)
  time_Now : Env -> Z;
  (* what nsqd at [addr] answers to a PUB of [body] on [topic] *)
  nsqd_publish : string -> string -> bytes -> Env -> option error * Env;
  (* the checks of nsq.NewProducer(addr, config) *)
  NewProducer_check : string -> Config -> option error;
  (* the checks of nsq.NewConsumer(topic, channel, config) *)
  NewConsumer_check : string -> string -> Config -> option error;
  (* the outcome of consumer.ConnectToNSQLookupd(addr) *)
  lookupd_connect : string -> Env -> option error * Env
}.

Section Library.
Context {Env : Type} `{!Broker Env}.

Definition now : Go Env Z := fun w => (Returns (time_Now (env w)), w).

(** [nsq.HandlerFunc]. *)
Definition HandlerFunc : Type := Message -> Go Env (option error).

(** [*nsq.Consumer]. *)
Record Consumer := {
  consumer_topic : string;
  consumer_channel : string;
  consumer_config : Config;
  consumer_handlers : list HandlerFunc;
  consumer_lookupds : list string
}.

Definition NewProducer (addr : string) (config : Config) : outcome (Producer + error) :=
  match assertInitialized config with
  | Panics msg => Panics msg
  | Returns _ =>
      match NewProducer_check addr config with
      | Some e => Returns (inr e)
      | None => Returns (inl {| producer_addr := addr; producer_config := config |})
      end
  end.

(** [p.Publish(topic, body)]: one PUB to the producer's nsqd; a nil handle
    faults. *)
Definition Producer_Publish (p : option Producer) (topic : string) (body : bytes) : Go Env (option error) :=
  match p with
  | None => panic nil_dereference
  | Some p => fun w =>
      let (e, env') := nsqd_publish (producer_addr p) topic body (env w) in
      (Returns e, {| env := env'; trace := trace w ++ [EvPublish (producer_addr p) topic body] |})
  end.

Definition NewConsumer (topic channel : string) (config : Config)
  : outcome (Consumer + error) :=
  match assertInitialized config with
  | Panics msg => Panics msg
  | Returns _ =>
      match NewConsumer_check topic channel config with
      | Some e => Returns (inr e)
      | None => Returns (inl {| consumer_topic := topic; consumer_channel := channel;
                                consumer_config := config; consumer_handlers := [];
                                consumer_lookupds := [] |})
      end
  end.

Definition AddHandler (r : Consumer) (h : HandlerFunc) : Consumer :=
  {| consumer_topic := consumer_topic r; consumer_channel := consumer_channel r;
     consumer_config := consumer_config r;
     consumer_handlers := consumer_handlers r ++ [h];
     consumer_lookupds := consumer_lookupds r |}.

Definition ConnectToNSQLookupd (r : Consumer) (addr : string) : Go Env (Consumer * option error) :=
  fun w =>
    match lookupd_connect addr (env w) with
    | (Some e, env') => (Returns (r, Some e), {| env := env'; trace := trace w |})
    | (None, env') =>
        (Returns ({| consumer_topic := consumer_topic r; consumer_channel := consumer_channel r;
                     consumer_config := consumer_config r;
                     consumer_handlers := consumer_handlers r;
                     consumer_lookupds := consumer_lookupds r ++ [addr] |}, None),
         {| env := env'; trace := trace w |})
    end.

(** [message.Requeue(delay)]. *)
Definition Message_Requeue (m : Message) (delay : Z) : Go Env unit := emit (EvRequeue delay).

End Library.

Arguments HandlerFunc Env : clear implicits.
Arguments Consumer Env : clear implicits.

End gonsq.

(** ** Package nsq *)

Module nsq.

Record NsqEvent := { Topic : string; Message : bytes }.

Record Client := { Pub : option gonsq.Producer; Config : gonsq.Config; Lookupd : string }.

Record NSQConfig := { Host : string; DTCPPort : string; HTTPPort : string }.

(** The scope the registered handler builds for a message with body [body]
    that it receives at time [t]. *)
Definition handler_scope (topic : string) (body : bytes) (t : Z) : Context :=
  WithTimeout (WithValue Background (StringKey topic) (VString (string_of_bytes body)))
              t (time_Second * 30).

Section Package.
Context {Env : Type} `{!gonsq.Broker Env}.

(** [type ConsumerFunc func(ctx context.Context, topic string) (err error)]:
    code of the caller, it acts on the caller's side of the world. *)
Definition ConsumerFunc : Type := Context -> string -> Env -> outcome (option error) * Env.

(** A call [cf(ctx, topic)]. *)
Definition invoke (cf : ConsumerFunc) (ctx : Context) (topic : string) : Go Env (option error) :=
  fun w => let (r, e') := cf ctx topic (env w) in
           (r, {| env := e'; trace := trace w ++ [EvInvoke ctx topic] |}).

(** consumer.go, [Consume]. *)
Definition Consume (c : Client) (ctx : Context) (topic : string) : Go Env (string * option error) :=
  match Value ctx (StringKey topic) with
  | VNil =>
      let* _ := log_Println "context value : " "<nil>" in
      ret (EmptyString, Some (Error ("failed to consume the topic " ++ topic)))
  | _ =>
      let* s := eval (assert_string (Value ctx (StringKey topic))) in
      let* _ := log_Println "context value : " s in
      let* s' := eval (assert_string (Value ctx (StringKey topic))) in
      ret (s', None)
  end.

(** consumer.go, [Publish].  [event] is a pointer: [None] is nil, and its
    fields are read before the producer is called. *)
Definition Publish (c : Client) (ctx : Context) (event : option NsqEvent) : Go Env (option error) :=
  match event with
  | None => panic nil_dereference
  | Some ev => gonsq.Producer_Publish (Pub c) (Topic ev) (Message ev)
  end.

(** The closure [RegisterConsumer] gives to [consumer.AddHandler]. *)
Definition handler (topic : string) (cf : ConsumerFunc) : gonsq.HandlerFunc Env :=
  fun message =>
    let body := string_of_bytes (gonsq.Body message) in
    let ctx := WithValue Background (StringKey topic) (VString body) in
    let* t := gonsq.now in
    let ctx := WithTimeout ctx t (time_Second * 30) in
    defer (emit (EvCancel ctx))
      (let* err := (let* _ := invoke cf ctx topic in ret (None : option error)) in
       match err with
       | Some e =>
           let* _ := log_Println "Error in handlerFunc:" (error_msg e) in
           let* _ := gonsq.Message_Requeue message (-1) in
           ret (Some e)
       | None => ret None
       end).

(** [RegisterConsumer].  Go returns the error only; the second component is
    the consumer the call leaves running, [None] when registration failed. *)
Definition RegisterConsumer (c : Client) (topic : string) (cf : ConsumerFunc)
  : Go Env (option error * option (gonsq.Consumer Env)) :=
  let* made := eval (gonsq.NewConsumer topic "channel" (Config c)) in
  match made with
  | inr err => ret (Some err, None)
  | inl consumer =>
      let consumer := gonsq.AddHandler consumer (handler topic cf) in
      let* r := gonsq.ConnectToNSQLookupd consumer (Lookupd c) in
      match r with
      | (_, Some err) => ret (Some err, None)
      | (consumer, None) => ret (None, Some consumer)
      end
  end.

(** [NewNSQClient].  [config] is a pointer: [None] is nil. *)
Definition NewNSQClient (config : option NSQConfig) : outcome (option Client * option error) :=
  match config with
  | None => Panics nil_dereference
  | Some config =>
      let nsqConfig := gonsq.NewConfig in
      let addr := Host config ++ ":" ++ DTCPPort config in
      match gonsq.NewProducer addr nsqConfig with
      | Panics msg => Panics msg
      | Returns (inr err) => Returns (None, Some err)
      | Returns (inl producer) =>
          Returns (Some {| Pub := Some producer; Config := nsqConfig;
                           Lookupd := Host config ++ ":" ++ HTTPPort config |}, None)
      end
  end.

End Package.

Arguments ConsumerFunc Env : clear implicits.

End nsq.

(** ** encoding/json, as far as the program uses it *)

Module gojson.

(** [json.Marshal(v)] and [json.Unmarshal(data, &x)] for [x] of type
    [interface{}]. *)
Class Codec := {
  Marshal : GoValue -> bytes + error;
  Unmarshal : bytes -> GoValue + error
}.

(** The JSON kind named by an [UnmarshalTypeError]. *)
Definition kind (v : GoValue) : string :=
  match v with
  | VNil => "null"
  | VBool _ => "bool"
  | VInt _ | VFloat64 _ => "number"
  | VString _ | VBytes _ => "string"
  | VSlice _ => "array"
  | VMap _ => "object"
  | VChan => "chan"
  end.

(** [x], marshalled on its own, decodes to [y]. *)
Definition reads_back `{!Codec} (x y : GoValue) : Prop :=
  forall b, Marshal x = inl b -> Unmarshal b = inl y.

(** [json.Unmarshal(data, &x)] for [x] a nil [[]interface{}]: an array
    fills the slice with its elements decoded as [interface{}], [null]
    leaves it nil, any other document is a type error. *)
Definition Unmarshal_slice `{!Codec} (data : bytes) : list GoValue + error :=
  match Unmarshal data with
  | inr err => inr err
  | inl (VSlice l) => inl l
  | inl VNil => inl []
  | inl v => inr (Error ("json: cannot unmarshal " ++ kind v ++
                         " into Go value of type caches.MultipleDataRecord"))
  end.

End gojson.

(** ** The gomemcache client, as far as the program uses it *)

Module memcache.

(** [*memcache.Client], from [memcache.New(server)]. *)
Record Client := New { server : string }.

(** [*memcache.Item]. *)
Record Item := { Key : string; Value : bytes }.

(** The memcached server behind the client; [S] is its state. *)
Class Server (S : Type) := {
  Client_Set : Client -> Item -> S -> option error * S;
  Client_Get : Client -> string -> S -> Item + error
}.

(** What the program expects of a key-value store: a key that was set
    reads back the stored octets. *)
Definition stores {S} `{!Server S} : Prop :=
  forall (c : Client) (item : Item) (s s' : S),
    Client_Set c item s = (None, s') ->
    exists item', Client_Get c (Key item) s' = inl item' /\ Value item' = Value item.

End memcache.

(** ** The go-redis client, as far as the program uses it *)

Module redis.

Record Options := { Addr : string; Password : string; DB : Z }.

(** [*redis.Client], from [redis.NewClient(&options)]. *)
Record Client := NewClient { options : Options }.

(** The argument writer of the client ([Writer.WriteArg]): how a command
    argument is shaped into octets.  Scalars are written out; a value of
    any other type (one that does not implement encoding.BinaryMarshaler)
    is refused with an error. *)
Definition WriteArg (v : GoValue) : bytes + error :=
  match v with
  | VNil => inl []
  | VString s => inl (bytes_of_string s)
  | VBytes b => inl b
  | VInt z | VFloat64 z => inl (bytes_of_string (pretty z))
  | VBool true => inl (bytes_of_string "1")
  | VBool false => inl (bytes_of_string "0")
  | VSlice _ | VMap _ | VChan =>
      inr (Error ("redis: can't marshal " ++ type_name v ++
                  " (implement encoding.BinaryMarshaler)"))
  end.

(** The redis server behind the client; [S] is its state.  [Client_Set] is
    [client.Set(ctx, key, value, expiration).Err()], [Client_Get] is
    [client.Get(ctx, key).Result()]. *)
Class Server (S : Type) := {
  Client_Set : Client -> Context -> string -> GoValue -> Z -> S -> option error * S;
  Client_Get : Client -> Context -> string -> S -> string + error
}.

(** A key that was set reads back as the octets the client shaped. *)
Definition stores {S} `{!Server S} : Prop :=
  forall (c : Client) ctx ctx' key v ttl (s s' : S),
    Client_Set c ctx key v ttl s = (None, s') ->
    exists b, WriteArg v = inl b /\ Client_Get c ctx' key s' = inl (string_of_bytes b).

End redis.

(** ** Package caches *)

Module caches.

Definition SingleDataRecord : Type := GoValue.
Definition MultipleDataRecord : Type := list GoValue.

(** The [Cache] interface: a value of an implementing type, seen through
    its four methods.  [S] is the state of the store behind it. *)
Record Cache (S : Type) := {
  SetSingle : Context -> string -> SingleDataRecord -> S -> option error * S;
  GetSingle : Context -> string -> S -> SingleDataRecord * option error;
  SetMultiple : Context -> string -> MultipleDataRecord -> S -> option error * S;
  GetMultiple : Context -> string -> S -> MultipleDataRecord * option error
}.
Arguments SetSingle {S} c ctx key value s.
Arguments GetSingle {S} c ctx key s.
Arguments SetMultiple {S} c ctx key value s.
Arguments GetMultiple {S} c ctx key s.

Record redisCache := { redisCache_client : redis.Client }.

Record memcacheCache := { memcacheCache_client : memcache.Client }.

(** [cacheStruct] embeds the interface. *)
Record cacheStruct (S : Type) := { cacheStruct_Cache : Cache S }.
Arguments cacheStruct_Cache {S} c.

Section Memcache.
Context {S : Type} `{!gojson.Codec} `{!memcache.Server S}.

Definition memcacheCache_SetSingle (m : memcacheCache) (ctx : Context) (key : string)
  (value : SingleDataRecord) (s : S) : option error * S :=
  match gojson.Marshal value with
  | inr err => (Some err, s)
  | inl result =>
      memcache.Client_Set (memcacheCache_client m)
        {| memcache.Key := key; memcache.Value := result |} s
  end.

Definition memcacheCache_GetSingle (m : memcacheCache) (ctx : Context) (key : string)
  (s : S) : SingleDataRecord * option error :=
  match memcache.Client_Get (memcacheCache_client m) key s with
  | inr err => (VNil, Some err)
  | inl resp =>
      let response := memcache.Value resp in
      (VBytes response, None)
  end.

Definition memcacheCache_SetMultiple (m : memcacheCache) (ctx : Context) (key : string)
  (value : MultipleDataRecord) (s : S) : option error * S :=
  match gojson.Marshal (VSlice value) with
  | inr err => (Some err, s)
  | inl result =>
      memcache.Client_Set (memcacheCache_client m)
        {| memcache.Key := key; memcache.Value := result |} s
  end.

Definition memcacheCache_GetMultiple (m : memcacheCache) (ctx : Context) (key : string)
  (s : S) : MultipleDataRecord * option error :=
  match memcache.Client_Get (memcacheCache_client m) key s with
  | inr err => ([], Some err)
  | inl resp =>
      let response := memcache.Value resp in
      match gojson.Unmarshal_slice response with
      | inr err => ([], Some err)
      | inl result => (result, None)
      end
  end.

(** [var _ Cache = &memcacheCache{}] *)
Definition memcacheCache_as_Cache (m : memcacheCache) : Cache S :=
  {| SetSingle := memcacheCache_SetSingle m;
     GetSingle := memcacheCache_GetSingle m;
     SetMultiple := memcacheCache_SetMultiple m;
     GetMultiple := memcacheCache_GetMultiple m |}.

Definition NewMemcache (host port : string) : Cache S :=
  let client := memcache.New (host ++ ":" ++ port) in
  memcacheCache_as_Cache {| memcacheCache_client := client |}.

End Memcache.

Section Redis.
Context {S : Type} `{!gojson.Codec} `{!redis.Server S}.

Definition redisCache_SetSingle (r : redisCache) (ctx : Context) (key : string)
  (value : SingleDataRecord) (s : S) : option error * S :=
  redis.Client_Set (redisCache_client r) ctx key value 0 s.

Definition redisCache_GetSingle (r : redisCache) (ctx : Context) (key : string)
  (s : S) : SingleDataRecord * option error :=
  match redis.Client_Get (redisCache_client r) ctx key s with
  | inr err => (VNil, Some err)
  | inl resultStr =>
      match gojson.Unmarshal (bytes_of_string resultStr) with
      | inr err => (VNil, Some err)
      | inl result => (result, None)
      end
  end.

Definition redisCache_SetMultiple (r : redisCache) (ctx : Context) (key : string)
  (value : MultipleDataRecord) (s : S) : option error * S :=
  redis.Client_Set (redisCache_client r) ctx key (VSlice value) 0 s.

Definition redisCache_GetMultiple (r : redisCache) (ctx : Context) (key : string)
  (s : S) : MultipleDataRecord * option error :=
  match redis.Client_Get (redisCache_client r) ctx key s with
  | inr err => ([], Some err)
  | inl resultStr =>
      match gojson.Unmarshal_slice (bytes_of_string resultStr) with
      | inr err => ([], Some err)
      | inl result => (result, None)
      end
  end.

(** [var _ Cache = &redisCache{}] *)
Definition redisCache_as_Cache (r : redisCache) : Cache S :=
  {| SetSingle := redisCache_SetSingle r;
     GetSingle := redisCache_GetSingle r;
     SetMultiple := redisCache_SetMultiple r;
     GetMultiple := redisCache_GetMultiple r |}.

Definition NewRedis (host port : string) : Cache S :=
  let client := redis.NewClient {| redis.Addr := host ++ ":" ++ port;
                                   redis.Password := EmptyString; redis.DB := 0 |} in
  redisCache_as_Cache {| redisCache_client := client |}.

End Redis.

(** The implementing types of [Cache] that reach a store. *)
Inductive backend :=
| Memcache (m : memcacheCache)
| Redis (r : redisCache).

Definition adapter {S : Type} `{!gojson.Codec} `{!memcache.Server S} `{!redis.Server S}
  (b : backend) : Cache S :=
  match b with
  | Memcache m => memcacheCache_as_Cache m
  | Redis r => redisCache_as_Cache r
  end.

Section Wrapper.
Context {S : Type}.

(** The methods [cacheStruct] gets from the interface it embeds: each one
    is the embedded value's method. *)
Definition cacheStruct_as_Cache (w : cacheStruct S) : Cache S :=
  {| SetSingle := fun ctx key value s => SetSingle (cacheStruct_Cache w) ctx key value s;
     GetSingle := fun ctx key s => GetSingle (cacheStruct_Cache w) ctx key s;
     SetMultiple := fun ctx key value s => SetMultiple (cacheStruct_Cache w) ctx key value s;
     GetMultiple := fun ctx key s => GetMultiple (cacheStruct_Cache w) ctx key s |}.

Definition NewCache (cache : Cache S) : Cache S :=
  cacheStruct_as_Cache {| cacheStruct_Cache := cache |}.

End Wrapper.

End caches.

(** ** In-memory instances of the collaborators

    Used to run the program on concrete inputs.  The stores are finite
    maps.  The codec follows encoding/json on the values of the model: the
    encoder refuses channels only; the decoder reads every JSON document
    but a number with a fractional part, which the model has no value for.
    As in Go, a number decodes to a float64 when the target is an
    [interface{}]. *)

Module reference.

Local Open Scope list_scope.

(** *** memcached *)

Definition legalKey (key : string) : bool :=
  (String.length key <=? 250)%nat &&
  forallb (fun a => (32 <? nat_of_ascii a)%nat && negb (nat_of_ascii a =? 127)%nat)
          (list_ascii_of_string key).

Definition ErrMalformedKey : error :=
  Error "malformed: key is too long or contains invalid characters".
Definition ErrCacheMiss : error := Error "memcache: cache miss".

Definition memcached_Set (c : memcache.Client) (item : memcache.Item)
  (s : gmap string bytes) : option error * gmap string bytes :=
  if legalKey (memcache.Key item)
  then (None, <[memcache.Key item := memcache.Value item]> s)
  else (Some ErrMalformedKey, s).

Definition memcached_Get (c : memcache.Client) (key : string)
  (s : gmap string bytes) : memcache.Item + error :=
  if legalKey key
  then match s !! key with
       | Some v => inl {| memcache.Key := key; memcache.Value := v |}
       | None => inr ErrCacheMiss
       end
  else inr ErrMalformedKey.

#[global] Instance memcached : memcache.Server (gmap string bytes) :=
  {| memcache.Client_Set := memcached_Set; memcache.Client_Get := memcached_Get |}.

(** *** redis *)

Definition redis_Nil : error := Error "redis: nil".

Definition redisd_Set (c : redis.Client) (ctx : Context) (key : string) (v : GoValue)
  (ttl : Z) (s : gmap string bytes) : option error * gmap string bytes :=
  match redis.WriteArg v with
  | inr err => (Some err, s)
  | inl b => (None, <[key := b]> s)
  end.

Definition redisd_Get (c : redis.Client) (ctx : Context) (key : string)
  (s : gmap string bytes) : string + error :=
  match s !! key with
  | Some b => inl (string_of_bytes b)
  | None => inr redis_Nil
  end.

#[global] Instance redisd : redis.Server (gmap string bytes) :=
  {| redis.Client_Set := redisd_Set; redis.Client_Get := redisd_Get |}.

(** *** JSON *)

Definition chars (s : string) : list ascii := list_ascii_of_string s.

(** The double quote. *)
Definition dquote : ascii := "034"%char.

(** Octets as numbers. *)
Definition code (a : ascii) : Z := Z.of_N (N_of_ascii a).
Definition char (z : Z) : ascii := ascii_of_N (Z.to_N z).

Definition is_ws (a : ascii) : bool :=
  (code a =? 32) || (code a =? 9) || (code a =? 10) || (code a =? 13).

Definition is_digit (a : ascii) : bool := (48 <=? code a) && (code a <=? 57).

Definition digit (a : ascii) : Z := code a - 48.

(** **** UTF-8 *)

Definition continuation (b : Z) : bool := (128 <=? b) && (b <=? 191).

(** The code point and the length of the UTF-8 sequence [s] starts with,
    when it starts with a well-formed one of two to four octets. *)
Definition utf8_rune (s : list ascii) : option (Z * nat) :=
  match map code (firstn 4 s) with
  | a :: rest =>
      if (194 <=? a) && (a <=? 223) then
        match rest with
        | b :: _ => if continuation b then Some ((a - 192) * 64 + (b - 128), 2%nat) else None
        | _ => None
        end
      else if (224 <=? a) && (a <=? 239) then
        match rest with
        | b :: c :: _ =>
            if ((if a =? 224 then 160 else 128) <=? b) &&
               (b <=? (if a =? 237 then 159 else 191)) && continuation c
            then Some ((a - 224) * 4096 + (b - 128) * 64 + (c - 128), 3%nat) else None
        | _ => None
        end
      else if (240 <=? a) && (a <=? 244) then
        match rest with
        | b :: c :: d :: _ =>
            if ((if a =? 240 then 144 else 128) <=? b) &&
               (b <=? (if a =? 244 then 143 else 191)) && continuation c && continuation d
            then Some ((a - 240) * 262144 + (b - 128) * 4096 + (c - 128) * 64 + (d - 128), 4%nat)
            else None
        | _ => None
        end
      else None
  | [] => None
  end.

(** [utf8.EncodeRune]: surrogates and code points past U+10FFFF become
    U+FFFD. *)
Definition utf8_encode (cp : Z) : list ascii :=
  let cp := if ((55296 <=? cp) && (cp <=? 57343)) || (1114111 <? cp) then 65533 else cp in
  if cp <? 128 then [char cp]
  else if cp <? 2048 then [char (192 + cp / 64); char (128 + cp mod 64)]
  else if cp <? 65536 then
    [char (224 + cp / 4096); char (128 + cp / 64 mod 64); char (128 + cp mod 64)]
  else [char (240 + cp / 262144); char (128 + cp / 4096 mod 64);
        char (128 + cp / 64 mod 64); char (128 + cp mod 64)].

(** **** The encoder *)

Definition hex_digit (n : Z) : ascii := if n <? 10 then char (48 + n) else char (87 + n).

(** The escape of a code point below 65536, with four hexadecimal digits. *)
Definition u_escape (cp : Z) : list ascii :=
  ["\"%char; "u"%char; hex_digit (cp / 4096); hex_digit (cp / 256 mod 16);
   hex_digit (cp / 16 mod 16); hex_digit (cp mod 16)].

(** An octet below 128 inside a string: as it is when it is safe, a short
    escape for the quote, the backslash and five control characters,
    a [u] escape for the other control characters and for <, > and &. *)
Definition escape_ascii (a : ascii) : list ascii :=
  let c := code a in
  if (c =? 34) || (c =? 92) then ["\"%char; a]
  else if c =? 8 then ["\"%char; "b"%char]
  else if c =? 12 then ["\"%char; "f"%char]
  else if c =? 10 then ["\"%char; "n"%char]
  else if c =? 13 then ["\"%char; "r"%char]
  else if c =? 9 then ["\"%char; "t"%char]
  else if (c <? 32) || (c =? 60) || (c =? 62) || (c =? 38) then u_escape c
  else [a].

(** [fuel] is the length of [s]. *)
Fixpoint encode_chars (fuel : nat) (s : list ascii) : list ascii :=
  match fuel, s with
  | Datatypes.S n, a :: r =>
      if code a <? 128 then escape_ascii a ++ encode_chars n r
      else match utf8_rune s with
           | None => u_escape 65533 ++ encode_chars n r
           | Some (cp, len) =>
               (if (cp =? 8232) || (cp =? 8233) then u_escape cp else firstn len s)
               ++ encode_chars n (skipn len s)
           end
  | _, _ => []
  end.

Definition encode_string (s : string) : list ascii :=
  dquote :: encode_chars (String.length s) (chars s) ++ [dquote].

(** Nearest integer to [n / d], ties to even, for [0 <= n] and [0 < d]. *)
Definition round_half_even (n d : Z) : Z :=
  let q := n / d in
  let r := n mod d in
  if 2 * r <? d then q
  else if d <? 2 * r then q + 1
  else if Z.even q then q else q + 1.

(** The float64 nearest to [n / d], for [2 ^ 52 <= n / d]: an integer. *)
Definition nearest_float (n d : Z) : Z :=
  let e := Z.log2 (n / d) - 52 in
  round_half_even n (d * 2 ^ e) * 2 ^ e.

(** The float64 nearest to a non-negative integer. *)
Definition float_of_int (z : Z) : Z := if z <? 2 ^ 53 then z else nearest_float z 1.

Definition decimal (z : Z) : list ascii := chars (pretty z).

(** The shortest decimal that reads back as the float [z], [0 < z]: the
    first precision [p] at which one of the two neighbours of [z] with [p]
    significant digits does, and of the two the nearer one. *)
Fixpoint shortest (fuel : nat) (p n z : Z) : Z :=
  match fuel with
  | O => z
  | Datatypes.S k =>
      let u := 10 ^ (n - p) in
      let lo := z / u * u in
      let hi := lo + u in
      let oklo := (0 <? lo) && (float_of_int lo =? z) in
      let okhi := float_of_int hi =? z in
      if oklo && okhi then
        if z - lo <? hi - z then lo
        else if hi - z <? z - lo then hi
        else if Z.even (z / u) then lo else hi
      else if oklo then lo
      else if okhi then hi
      else shortest k (p + 1) n z
  end.

Fixpoint strip_zeros (rev_digits : list ascii) : list ascii :=
  match rev_digits with
  | a :: r => if Ascii.eqb a "0"%char then strip_zeros r else rev_digits
  | [] => []
  end.

(** A float64 holding an integer: all digits below 1e21, mantissa and
    exponent from there on. *)
Definition encode_float (z : Z) : list ascii :=
  let a := float_of_int (Z.abs z) in
  let sign := if z <? 0 then ["-"%char] else [] in
  if a =? 0 then ["0"%char]
  else
    let n := Z.of_nat (length (decimal a)) in
    let d := decimal (shortest (Z.to_nat n) 1 n a) in
    if a <? 10 ^ 21 then sign ++ d
    else
      let exponent := decimal (Z.of_nat (length d) - 1) in
      match rev (strip_zeros (rev d)) with
      | first :: [] => sign ++ [first] ++ ["e"%char; "+"%char] ++ exponent
      | first :: more => sign ++ [first; "."%char] ++ more ++ ["e"%char; "+"%char] ++ exponent
      | [] => []
      end.

Definition b64 (n : Z) : ascii :=
  nth (Z.to_nat n)
      (chars "ABCDEFGHIJKLMNOPQRSTUVWXYZabcdefghijklmnopqrstuvwxyz0123456789+/") "="%char.

(** Standard base64 with padding. *)
Fixpoint base64 (b : list Z) : list ascii :=
  match b with
  | x :: y :: z :: r =>
      [b64 (x / 4); b64 (x mod 4 * 16 + y / 16); b64 (y mod 16 * 4 + z / 64); b64 (z mod 64)]
      ++ base64 r
  | [x; y] => [b64 (x / 4); b64 (x mod 4 * 16 + y / 16); b64 (y mod 16 * 4); "="%char]
  | [x] => [b64 (x / 4); b64 (x mod 4 * 16); "="%char; "="%char]
  | [] => []
  end.

(** Byte order on keys. *)
Fixpoint key_lt (a b : list ascii) : bool :=
  match a, b with
  | [], _ :: _ => true
  | x :: a', y :: b' => (code x <? code y) || ((code x =? code y) && key_lt a' b')
  | _, [] => false
  end.

(** A map as the list of its entries in key order: a later entry for a key
    replaces an earlier one. *)
Fixpoint put {A} (k : string) (x : A) (m : list (string * A)) : list (string * A) :=
  match m with
  | [] => [(k, x)]
  | (k', x') :: r =>
      if String.eqb k k' then (k, x) :: r
      else if key_lt (chars k) (chars k') then (k, x) :: m
      else (k', x') :: put k x r
  end.

Definition by_key {A} (m : list (string * A)) : list (string * A) :=
  fold_left (fun acc kx => put (fst kx) (snd kx) acc) m [].

Fixpoint join (parts : list (list ascii)) : list ascii :=
  match parts with
  | [] => []
  | [x] => x
  | x :: r => x ++ ","%char :: join r
  end.

(** [json.Marshal] on the values of the model: [None] for a value the
    encoder has no encoding for, a channel or a value that holds one. *)
Fixpoint encode (v : GoValue) : option (list ascii) :=
  match v with
  | VNil => Some (chars "null")
  | VBool true => Some (chars "true")
  | VBool false => Some (chars "false")
  | VInt z => Some (decimal z)
  | VFloat64 z => Some (encode_float z)
  | VString s => Some (encode_string s)
  | VBytes b => Some (dquote :: base64 (map (fun x => Z.of_N (Byte.to_N x)) b) ++ [dquote])
  | VSlice l =>
      let fix elements (l : list GoValue) : option (list (list ascii)) :=
        match l with
        | [] => Some []
        | x :: r =>
            match encode x, elements r with
            | Some e, Some rest => Some (e :: rest)
            | _, _ => None
            end
        end in
      match elements l with
      | Some parts => Some ("["%char :: join parts ++ ["]"%char])
      | None => None
      end
  | VMap m =>
      let fix members (m : list (string * GoValue)) : option (list (string * list ascii)) :=
        match m with
        | [] => Some []
        | (k, x) :: r =>
            match encode x, members r with
            | Some e, Some rest => Some ((k, e) :: rest)
            | _, _ => None
            end
        end in
      match members m with
      | Some entries =>
          Some ("{"%char ::
                join (map (fun ke => encode_string (fst ke) ++ ":"%char :: snd ke) (by_key entries))
                ++ ["}"%char])
      | None => None
      end
  | VChan => None
  end.

(** **** The decoder *)

Definition SyntaxError : error := Error "json: invalid document".

(** A parse: a result and the rest of the input, or an error. *)
Definition parse (A : Type) : Type := (A * list ascii) + error.

Definition prepend (cs : list ascii) (p : parse (list ascii)) : parse (list ascii) :=
  match p with
  | inl (s, rest) => inl (cs ++ s, rest)
  | inr e => inr e
  end.

Fixpoint skip_ws (s : list ascii) : list ascii :=
  match s with
  | a :: r => if is_ws a then skip_ws r else s
  | [] => []
  end.

Definition hex_value (a : ascii) : option Z :=
  let c := code a in
  if (48 <=? c) && (c <=? 57) then Some (c - 48)
  else if (97 <=? c) && (c <=? 102) then Some (c - 87)
  else if (65 <=? c) && (c <=? 70) then Some (c - 55)
  else None.

(** Four hexadecimal digits. *)
Definition hex4 (s : list ascii) : option (Z * list ascii) :=
  match s with
  | a :: b :: c :: d :: r =>
      match hex_value a, hex_value b, hex_value c, hex_value d with
      | Some x, Some y, Some z, Some t => Some (x * 4096 + y * 256 + z * 16 + t, r)
      | _, _, _, _ => None
      end
  | _ => None
  end.

(** A [u] escape after the one that gave [first], as [getu4] reads it. *)
Definition second_escape (s : list ascii) : option (Z * list ascii) :=
  match s with
  | a :: b :: r =>
      if Ascii.eqb a "\"%char && Ascii.eqb b "u"%char then hex4 r else None
  | _ => None
  end.

Definition simple_escape (b : ascii) : option ascii :=
  let c := code b in
  if (c =? 34) || (c =? 92) || (c =? 47) then Some b
  else if c =? 98 then Some (char 8)
  else if c =? 102 then Some (char 12)
  else if c =? 110 then Some (char 10)
  else if c =? 114 then Some (char 13)
  else if c =? 116 then Some (char 9)
  else None.

(** The rest of a string literal, after its opening quote; [fuel] is the
    length of [s]. *)
Fixpoint parse_chars (fuel : nat) (s : list ascii) : parse (list ascii) :=
  match fuel, s with
  | Datatypes.S n, a :: r =>
      if Ascii.eqb a dquote then inl ([], r)
      else if Ascii.eqb a "\"%char then
        match r with
        | b :: r' =>
            match simple_escape b with
            | Some x => prepend [x] (parse_chars n r')
            | None =>
                if Ascii.eqb b "u"%char then
                  match hex4 r' with
                  | Some (first, r1) =>
                      if (55296 <=? first) && (first <=? 57343) then
                        match second_escape r1 with
                        | Some (second, r2) =>
                            if (first <? 56320) && (56320 <=? second) && (second <=? 57343)
                            then prepend (utf8_encode (65536 + (first - 55296) * 1024
                                                       + (second - 56320)))
                                         (parse_chars n r2)
                            else prepend (utf8_encode 65533) (parse_chars n r1)
                        | None => prepend (utf8_encode 65533) (parse_chars n r1)
                        end
                      else prepend (utf8_encode first) (parse_chars n r1)
                  | None => inr SyntaxError
                  end
                else inr SyntaxError
            end
        | [] => inr SyntaxError
        end
      else if code a <? 32 then inr SyntaxError
      else if code a <? 128 then prepend [a] (parse_chars n r)
      else match utf8_rune s with
           | Some (_, len) => prepend (firstn len s) (parse_chars n (skipn len s))
           | None => prepend (utf8_encode 65533) (parse_chars n r)
           end
  | _, _ => inr SyntaxError
  end.

(** A run of digits: its value, its length, the rest. *)
Fixpoint digits (acc : Z) (count : Z) (s : list ascii) : Z * Z * list ascii :=
  match s with
  | a :: r => if is_digit a then digits (10 * acc + digit a) (count + 1) r else (acc, count, s)
  | [] => (acc, count, [])
  end.

(** A number literal: sign, mantissa [m] and decimal exponent [k] of the
    value [m * 10 ^ k]. *)
Definition parse_literal (s : list ascii) : option (bool * Z * Z * list ascii) :=
  let (negative, s) :=
    match s with
    | a :: r => if Ascii.eqb a "-"%char then (true, r) else (false, s)
    | [] => (false, s)
    end in
  match s with
  | a :: r =>
      if negb (is_digit a) then None
      else
        let '(whole, _, r1) := if Ascii.eqb a "0"%char then (0, 1, r) else digits 0 0 s in
        let fraction :=
          match r1 with
          | dot :: r2 =>
              if Ascii.eqb dot "."%char then
                let '(m, count, r3) := digits whole 0 r2 in
                if count =? 0 then None else Some (m, count, r3)
              else Some (whole, 0, r1)
          | [] => Some (whole, 0, r1)
          end in
        match fraction with
        | None => None
        | Some (m, places, r3) =>
            match r3 with
            | e :: r4 =>
                if Ascii.eqb e "e"%char || Ascii.eqb e "E"%char then
                  let (minus, r5) :=
                    match r4 with
                    | sg :: r' =>
                        if Ascii.eqb sg "-"%char then (true, r')
                        else if Ascii.eqb sg "+"%char then (false, r')
                        else (false, r4)
                    | [] => (false, r4)
                    end in
                  let '(x, count, r6) := digits 0 0 r5 in
                  if count =? 0 then None
                  else Some (negative, m, (if minus then - x else x) - places, r6)
                else Some (negative, m, - places, r3)
            | [] => Some (negative, m, - places, r3)
            end
        end
  | [] => None
  end.

(** The float64 a literal reads as, when it holds an integer. *)
Definition float_of_literal (negative : bool) (m k : Z) : GoValue + error :=
  let n := if 0 <=? k then m * 10 ^ k else m in
  let d := if 0 <=? k then 1 else 10 ^ (- k) in
  let sign := if negative then -1 else 1 in
  if 2 ^ 52 <=? n / d then
    let f := nearest_float n d in
    if 2 ^ 1024 <=? f
    then inr (Error "json: cannot unmarshal number into Go value of type float64")
    else inl (VFloat64 (sign * f))
  else if n mod d =? 0 then inl (VFloat64 (sign * (n / d)))
  else inr (Error "json: a number with a fractional part has no value in this model").

Definition strip (prefix : string) (s : list ascii) : option (list ascii) :=
  let p := chars prefix in
  if bool_decide (take (length p) s = p) then Some (drop (length p) s) else None.

(** [value ("," value)* "]"], with [pv] the parser of one value. *)
Fixpoint parse_elements (pv : list ascii -> parse GoValue)
  (fuel : nat) (s : list ascii) : parse (list GoValue) :=
  match fuel with
  | O => inr SyntaxError
  | Datatypes.S n =>
      match pv s with
      | inr e => inr e
      | inl (v, r) =>
          match skip_ws r with
          | c :: r' =>
              if Ascii.eqb c "]"%char then inl ([v], r')
              else if Ascii.eqb c ","%char then
                match parse_elements pv n r' with
                | inl (vs, rest) => inl (v :: vs, rest)
                | inr e => inr e
                end
              else inr SyntaxError
          | [] => inr SyntaxError
          end
      end
  end.

(** [string ":" value ("," string ":" value)* "}"], entries in the order
    of the document. *)
Fixpoint parse_members (pv : list ascii -> parse GoValue)
  (fuel : nat) (s : list ascii) : parse (list (string * GoValue)) :=
  match fuel with
  | O => inr SyntaxError
  | Datatypes.S n =>
      match skip_ws s with
      | q :: r =>
          if negb (Ascii.eqb q dquote) then inr SyntaxError else
          match parse_chars (length r) r with
          | inr e => inr e
          | inl (k, r1) =>
              match skip_ws r1 with
              | c :: r2 =>
                  if negb (Ascii.eqb c ":"%char) then inr SyntaxError else
                  match pv r2 with
                  | inr e => inr e
                  | inl (v, r3) =>
                      match skip_ws r3 with
                      | d :: r4 =>
                          if Ascii.eqb d "}"%char
                          then inl ([(string_of_list_ascii k, v)], r4)
                          else if Ascii.eqb d ","%char then
                            match parse_members pv n r4 with
                            | inl (kvs, rest) => inl ((string_of_list_ascii k, v) :: kvs, rest)
                            | inr e => inr e
                            end
                          else inr SyntaxError
                      | [] => inr SyntaxError
                      end
                  end
              | [] => inr SyntaxError
              end
          end
      | [] => inr SyntaxError
      end
  end.

Fixpoint parse_value (fuel : nat) (s : list ascii) : parse GoValue :=
  match fuel with
  | O => inr SyntaxError
  | Datatypes.S n =>
      match skip_ws s with
      | [] => inr SyntaxError
      | c :: r =>
          if Ascii.eqb c dquote then
            match parse_chars (length r) r with
            | inl (cs, rest) => inl (VString (string_of_list_ascii cs), rest)
            | inr e => inr e
            end
          else if Ascii.eqb c "["%char then
            match skip_ws r with
            | d :: r' =>
                if Ascii.eqb d "]"%char then inl (VSlice [], r')
                else match parse_elements (parse_value n) (length r) r with
                     | inl (vs, rest) => inl (VSlice vs, rest)
                     | inr e => inr e
                     end
            | [] => inr SyntaxError
            end
          else if Ascii.eqb c "{"%char then
            match skip_ws r with
            | d :: r' =>
                if Ascii.eqb d "}"%char then inl (VMap [], r')
                else match parse_members (parse_value n) (length r) r with
                     | inl (kvs, rest) => inl (VMap (by_key kvs), rest)
                     | inr e => inr e
                     end
            | [] => inr SyntaxError
            end
          else if Ascii.eqb c "n"%char then
            match strip "null" (c :: r) with
            | Some rest => inl (VNil, rest)
            | None => inr SyntaxError
            end
          else if Ascii.eqb c "t"%char then
            match strip "true" (c :: r) with
            | Some rest => inl (VBool true, rest)
            | None => inr SyntaxError
            end
          else if Ascii.eqb c "f"%char then
            match strip "false" (c :: r) with
            | Some rest => inl (VBool false, rest)
            | None => inr SyntaxError
            end
          else
            match parse_literal (c :: r) with
            | Some (negative, m, k, rest) =>
                match float_of_literal negative m k with
                | inl v => inl (v, rest)
                | inr e => inr e
                end
            | None => inr SyntaxError
            end
      end
  end.

Definition bytes_of_chars (cs : list ascii) : bytes := map byte_of_ascii cs.
Definition chars_of_bytes (b : bytes) : list ascii := map ascii_of_byte b.

Definition json_Marshal (v : GoValue) : bytes + error :=
  match encode v with
  | Some cs => inl (bytes_of_chars cs)
  | None => inr (Error "json: unsupported type: chan int")
  end.

Definition json_Unmarshal (data : bytes) : GoValue + error :=
  let cs := chars_of_bytes data in
  match parse_value (Datatypes.S (length cs)) cs with
  | inl (v, rest) =>
      match skip_ws rest with
      | [] => inl v
      | _ => inr (Error "json: invalid character after top-level value")
      end
  | inr e => inr e
  end.

#[global] Instance json : gojson.Codec :=
  {| gojson.Marshal := json_Marshal; gojson.Unmarshal := json_Unmarshal |}.

(** *** A broker and a consumer function *)

Record Net := { clock : Z; nsqd_up : bool; queued : list (string * bytes) }.

Definition net_publish (addr topic : string) (body : bytes) (n : Net) : option error * Net :=
  if nsqd_up n
  then (None, {| clock := clock n; nsqd_up := true; queued := queued n ++ [(topic, body)] |})
  else (Some (Error "dial tcp: connection refused"), n).

Definition net_NewConsumer_check (topic channel : string) (c : gonsq.Config) : option error :=
  if bool_decide (topic = EmptyString) then Some (Error "invalid topic name") else None.

#[global] Instance net : gonsq.Broker Net :=
  {| gonsq.time_Now := clock;
     gonsq.nsqd_publish := net_publish;
     gonsq.NewProducer_check := fun _ _ => None;
     gonsq.NewConsumer_check := net_NewConsumer_check;
     gonsq.lookupd_connect := fun _ n => (None, n) |}.

(** *** Adapters on the in-memory stores *)

Definition redis_adapter : caches.redisCache :=
  {| caches.redisCache_client :=
       redis.NewClient {| redis.Addr := "127.0.0.1:6379"; redis.Password := EmptyString;
                          redis.DB := 0 |} |}.

Definition memcache_adapter : caches.memcacheCache :=
  {| caches.memcacheCache_client := memcache.New "127.0.0.1:11211" |}.

(** The redis store after the adapter's [SetSingle] of a string under "k". *)
Definition redis_after_set (s : string) : gmap string bytes :=
  snd (caches.redisCache_SetSingle redis_adapter Background "k" (VString s) ∅).

(** A consumer function that reports a failure for every message. *)
Definition failing : nsq.ConsumerFunc Net :=
  fun _ _ n => (Returns (Some (Error "processing failed")), n).

Definition client : nsq.Client :=
  {| nsq.Pub := Some {| gonsq.producer_addr := "127.0.0.1:4150";
                        gonsq.producer_config := gonsq.NewConfig |};
     nsq.Config := gonsq.NewConfig;
     nsq.Lookupd := "127.0.0.1:4161" |}.

Definition idle : World Net :=
  {| env := {| clock := 1000; nsqd_up := true; queued := [] |}; trace := [] |}.

Definition unreachable : World Net :=
  {| env := {| clock := 1000; nsqd_up := false; queued := [] |}; trace := [] |}.

(** The consumer a registration of [failing] on "orders" leaves running. *)
Definition registered : gonsq.Consumer Net :=
  {| gonsq.consumer_topic := "orders"; gonsq.consumer_channel := "channel";
     gonsq.consumer_config := gonsq.NewConfig;
     gonsq.consumer_handlers := [nsq.handler "orders" failing];
     gonsq.consumer_lookupds := ["127.0.0.1:4161"] |}.

Definition order42 : gonsq.Message :=
  {| gonsq.Body := bytes_of_string "order-42"; gonsq.Attempts := 1 |}.

End reference.

(** ** More situations: a consumer function that panics, a broker that is
    down *)

Module scenario.

Definition panicking : nsq.ConsumerFunc reference.Net :=
  fun _ _ n => (Panics "order rejected", n).

(** Nothing answers: the producer address is refused, sends fail, the
    lookupd cannot be reached. *)
Record Outage := { outage_clock : Z }.

Definition refused : error := Error "dial tcp: connection refused".

#[global] Instance outage : gonsq.Broker Outage :=
  {| gonsq.time_Now := outage_clock;
     gonsq.nsqd_publish := fun _ _ _ o => (Some refused, o);
     gonsq.NewProducer_check := fun _ _ => Some (Error "invalid address");
     gonsq.NewConsumer_check := fun _ _ _ => None;
     gonsq.lookupd_connect := fun _ o => (Some refused, o) |}.

Definition dark : World Outage := {| env := {| outage_clock := 1000 |}; trace := [] |}.

Definition silent : nsq.ConsumerFunc Outage := fun _ _ o => (Returns None, o).

(** A client written by hand, without a configuration. *)
Definition unconfigured : nsq.Client :=
  {| nsq.Pub := None; nsq.Config := gonsq.NilConfig; nsq.Lookupd := "127.0.0.1:4161" |}.

Definition config : nsq.NSQConfig :=
  {| nsq.Host := "127.0.0.1"; nsq.DTCPPort := "4150"; nsq.HTTPPort := "4161" |}.

Definition order : nsq.NsqEvent :=
  {| nsq.Topic := "orders"; nsq.Message := bytes_of_string "order-42" |}.

End scenario.

(** * Properties *)

Example json_scenario :
  reference.json_Unmarshal
    (match reference.json_Marshal (VMap [("name", VString "a")]) with inl b => b | inr _ => [] end)
  = inl (VMap [("name", VString "a")]).
Proof. vm_compute. reflexivity. Qed.

Example json_nested :
  reference.json_Unmarshal (bytes_of_string " [1, [true, null], [], -12 , {} ] ")
  = inl (VSlice [VFloat64 1; VSlice [VBool true; VNil]; VSlice []; VFloat64 (-12); VMap []]).
Proof. vm_compute. reflexivity. Qed.

Example json_text :
  reference.json_Marshal (VSlice [VInt 1; VSlice [VBool true; VNil]; VInt (-12)])
  = inl (bytes_of_string "[1,[true,null],-12]").
Proof. vm_compute. reflexivity. Qed.

Example json_escapes :
  let s := String reference.dquote "x\y" in
  match reference.json_Marshal (VString s) with
  | inl b => length b = 8%nat /\ reference.json_Unmarshal b = inl (VString s)
  | inr _ => False
  end.
Proof. vm_compute. split; reflexivity. Qed.

Example json_large_int :
  reference.json_Marshal (VInt (2 ^ 60)) = inl (bytes_of_string "1152921504606846976") /\
  reference.json_Unmarshal (bytes_of_string "1152921504606846977") = inl (VFloat64 (2 ^ 60)).
Proof. vm_compute. split; reflexivity. Qed.

Example json_large_float :
  reference.json_Marshal (VFloat64 (2 ^ 60)) = inl (bytes_of_string "1152921504606847000") /\
  reference.json_Marshal (VFloat64 (2 ^ 70)) = inl (bytes_of_string "1.1805916207174113e+21").
Proof. vm_compute. split; reflexivity. Qed.

Example json_bytes :
  reference.json_Marshal (VBytes (bytes_of_string "hello"))
  = inl (reference.bytes_of_chars
           (reference.dquote :: reference.chars "aGVsbG8=" ++ [reference.dquote])%list).
Proof. vm_compute. reflexivity. Qed.

Example json_html :
  reference.json_Marshal (VString "a<b")
  = inl (reference.bytes_of_chars
           (reference.dquote :: reference.chars "a\u003cb" ++ [reference.dquote])%list) /\
  reference.json_Unmarshal
    (reference.bytes_of_chars
       (reference.dquote :: reference.chars "a\u003cb" ++ [reference.dquote])%list)
  = inl (VString "a<b").
Proof. vm_compute. split; reflexivity. Qed.

Example json_channel :
  reference.json_Marshal (VSlice [VInt 1; VChan]) = inr (Error "json: unsupported type: chan int").
Proof. vm_compute. reflexivity. Qed.

Example json_rejects :
  reference.json_Unmarshal (bytes_of_string "hello") = inr (Error "json: invalid document").
Proof. vm_compute. reflexivity. Qed.

(** ** The scope of a handler *)

Lemma handler_scope_unfold (topic : string) (body : bytes) (t : Z) :
  nsq.handler_scope topic body t =
  timerCtx (valueCtx Background (StringKey topic) (VString (string_of_bytes body)))
           (t + time_Second * 30).
Proof. reflexivity. Qed.

Lemma handler_scope_Value (topic : string) (body : bytes) (t : Z) :
  Value (nsq.handler_scope topic body t) (StringKey topic) = VString (string_of_bytes body).
Proof.
  rewrite handler_scope_unfold. simpl.
  destruct (decide (StringKey topic = StringKey topic)) as [_ | Hne]; [reflexivity | congruence].
Qed.

Section NsqFacts.
Context {Env : Type} `{!gonsq.Broker Env}.

(** What a run of the handler does, whatever the consumer function does:
    one call of it with the scope, then the deferred cancel. *)
Lemma handler_run (topic : string) (cf : nsq.ConsumerFunc Env) (message : gonsq.Message)
  (w : World Env) :
  let ctx := nsq.handler_scope topic (gonsq.Body message) (gonsq.time_Now (env w)) in
  nsq.handler topic cf message w =
  (match fst (cf ctx topic (env w)) with
   | Returns _ => Returns None
   | Panics msg => Panics msg
   end,
   {| env := snd (cf ctx topic (env w));
      trace := trace w ++ [EvInvoke ctx topic; EvCancel ctx] |}).
Proof.
  intros ctx. subst ctx. unfold nsq.handler_scope.
  unfold nsq.handler, defer, bind, gonsq.now, nsq.invoke, ret, emit. simpl.
  destruct (cf _ topic (env w)) as [[e | msg] env']; simpl;
    rewrite <- app_assoc; reflexivity.
Qed.

Lemma Consume_string (c : nsq.Client) (ctx : Context) (topic s : string) (w : World Env) :
  Value ctx (StringKey topic) = VString s ->
  nsq.Consume c ctx topic w =
  (Returns (s, None),
   {| env := env w; trace := trace w ++ [EvLog ("context value : " ++ " " ++ s)] |}).
Proof. intros Hv. unfold nsq.Consume. rewrite Hv. reflexivity. Qed.

Lemma Consume_nil (c : nsq.Client) (ctx : Context) (topic : string) (w : World Env) :
  Value ctx (StringKey topic) = VNil ->
  nsq.Consume c ctx topic w =
  (Returns (EmptyString, Some (Error ("failed to consume the topic " ++ topic))),
   {| env := env w; trace := trace w ++ [EvLog ("context value : " ++ " " ++ "<nil>")] |}).
Proof. intros Hv. unfold nsq.Consume. rewrite Hv. reflexivity. Qed.

Lemma Consume_other (c : nsq.Client) (ctx : Context) (topic : string) (w : World Env) :
  Value ctx (StringKey topic) <> VNil ->
  (forall s, Value ctx (StringKey topic) <> VString s) ->
  nsq.Consume c ctx topic w =
  (Panics ("interface conversion: interface {} is " ++
           type_name (Value ctx (StringKey topic)) ++ ", not string"), w).
Proof.
  intros Hnil Hstr. unfold nsq.Consume.
  destruct (Value ctx (StringKey topic)) eqn:Hv; try reflexivity.
  - congruence.
  - exfalso. apply (Hstr s). reflexivity.
Qed.

(** [RegisterConsumer], step by step: the configuration is asserted, the
    topic is checked, the lookupd is contacted. *)
Lemma RegisterConsumer_run (c : nsq.Client) (topic : string) (cf : nsq.ConsumerFunc Env)
  (w : World Env) :
  nsq.RegisterConsumer c topic cf w =
  match gonsq.assertInitialized (nsq.Config c) with
  | Panics msg => (Panics msg, w)
  | Returns _ =>
      match gonsq.NewConsumer_check topic "channel" (nsq.Config c) with
      | Some err => (Returns (Some err, None), w)
      | None =>
          match gonsq.lookupd_connect (nsq.Lookupd c) (env w) with
          | (Some err, env') => (Returns (Some err, None), {| env := env'; trace := trace w |})
          | (None, env') =>
              (Returns (None,
                        Some {| gonsq.consumer_topic := topic;
                                gonsq.consumer_channel := "channel";
                                gonsq.consumer_config := nsq.Config c;
                                gonsq.consumer_handlers := [nsq.handler topic cf];
                                gonsq.consumer_lookupds := [nsq.Lookupd c] |}),
               {| env := env'; trace := trace w |})
          end
      end
  end.
Proof.
  unfold nsq.RegisterConsumer, gonsq.NewConsumer, bind, eval.
  destruct (gonsq.assertInitialized (nsq.Config c)) as [u | msg]; [| reflexivity].
  destruct (gonsq.NewConsumer_check topic "channel" (nsq.Config c)) as [err | ];
    [reflexivity |].
  unfold ret, gonsq.ConnectToNSQLookupd, gonsq.AddHandler. simpl.
  destruct (gonsq.lookupd_connect (nsq.Lookupd c) (env w)) as [[err | ] env']; reflexivity.
Qed.

(** A successful registration leaves a consumer on the topic, in the shared
    channel, with the one handler built from the consumer function. *)
Lemma RegisterConsumer_installs (c : nsq.Client) (topic : string) (cf : nsq.ConsumerFunc Env)
  (w0 w1 : World Env) (consumer : gonsq.Consumer Env) :
  nsq.RegisterConsumer c topic cf w0 = (Returns (None, Some consumer), w1) ->
  gonsq.consumer_handlers consumer = [nsq.handler topic cf] /\
  gonsq.consumer_topic consumer = topic /\
  gonsq.consumer_channel consumer = "channel".
Proof.
  rewrite RegisterConsumer_run.
  destruct (gonsq.assertInitialized (nsq.Config c)) as [u | msg]; [| discriminate].
  destruct (gonsq.NewConsumer_check topic "channel" (nsq.Config c)) as [err | ];
    [discriminate |].
  destruct (gonsq.lookupd_connect (nsq.Lookupd c) (env w0)) as [[err | ] env'];
    intros Heq; inversion Heq; subst; simpl; auto.
Qed.

End NsqFacts.

(** ** The registered handler *)

(** C1.  The handler that RegisterConsumer installs drops the error of the
    consumer function: whatever error value [e] the function returns for a
    message, the handler returns nil to the broker, and the run adds no
    requeue to what the program did (one call of the function, then the
    deferred cancel). *)
Theorem registered_handler_discards_error {Env : Type} `{!gonsq.Broker Env}
  (c : nsq.Client) (topic : string) (cf : nsq.ConsumerFunc Env)
  (w0 w1 : World Env) (consumer : gonsq.Consumer Env)
  (h : gonsq.HandlerFunc Env) (message : gonsq.Message) (w : World Env)
  (e : option error) (env' : Env) :
  nsq.RegisterConsumer c topic cf w0 = (Returns (None, Some consumer), w1) ->
  h ∈ gonsq.consumer_handlers consumer ->
  cf (nsq.handler_scope topic (gonsq.Body message) (gonsq.time_Now (env w))) topic (env w)
    = (Returns e, env') ->
  fst (h message w) = Returns None /\
  env (snd (h message w)) = env' /\
  requeues (trace (snd (h message w))) = requeues (trace w).
Proof.
  intros Hreg Hin Hcf.
  destruct (RegisterConsumer_installs _ _ _ _ _ _ Hreg) as [Hh _].
  rewrite Hh in Hin. apply list_elem_of_singleton in Hin. subst h.
  rewrite handler_run. rewrite Hcf. simpl.
  split; [reflexivity |]. split; [reflexivity |].
  unfold requeues. rewrite omap_app. simpl. apply app_nil_r.
Qed.

Lemma registered_handler_discards_error_witness :
  nsq.RegisterConsumer reference.client "orders" reference.failing reference.idle
    = (Returns (None, Some reference.registered), reference.idle) /\
  forall h, h ∈ gonsq.consumer_handlers reference.registered ->
    fst (h reference.order42 reference.idle) = Returns None /\
    env (snd (h reference.order42 reference.idle)) = env reference.idle /\
    requeues (trace (snd (h reference.order42 reference.idle))) = [].
Proof.
  split.
  - reflexivity.
  - intros h Hh.
    exact (registered_handler_discards_error reference.client "orders" reference.failing
             reference.idle reference.idle reference.registered h reference.order42
             reference.idle (Some (Error "processing failed")) (env reference.idle)
             eq_refl Hh eq_refl).
Defined.

(** C3.  For a message with body [b] the installed handler calls the
    consumer function exactly once, with the topic and a scope that holds
    [string(b)] under the topic name and whose deadline is 30 seconds after
    the handler started; [Consume] on that scope and topic returns
    [string(b)] and a nil error.  The call is a run of the consumer
    function on that scope: what the function leaves of the outside world
    is what the handler leaves, and the handler returns nil when the
    function returns, and panics as the function does when it panics. *)
Theorem registered_handler_hands_over_body {Env : Type} `{!gonsq.Broker Env}
  (c : nsq.Client) (topic : string) (cf : nsq.ConsumerFunc Env)
  (w0 w1 : World Env) (consumer : gonsq.Consumer Env) :
  nsq.RegisterConsumer c topic cf w0 = (Returns (None, Some consumer), w1) ->
  exists h, gonsq.consumer_handlers consumer = [h] /\
    forall (message : gonsq.Message) (w : World Env),
      let scope := nsq.handler_scope topic (gonsq.Body message) (gonsq.time_Now (env w)) in
      invocations (trace (snd (h message w))) = (invocations (trace w) ++ [(scope, topic)])%list /\
      Value scope (StringKey topic) = VString (string_of_bytes (gonsq.Body message)) /\
      Deadline scope = Some (gonsq.time_Now (env w) + 30 * time_Second) /\
      (forall (c' : nsq.Client) (w' : World Env),
         fst (nsq.Consume c' scope topic w') = Returns (string_of_bytes (gonsq.Body message), None)) /\
      env (snd (h message w)) = snd (cf scope topic (env w)) /\
      fst (h message w) = match fst (cf scope topic (env w)) with
                          | Returns _ => Returns None
                          | Panics msg => Panics msg
                          end.
Proof.
  intros Hreg.
  destruct (RegisterConsumer_installs _ _ _ _ _ _ Hreg) as [Hh _].
  exists (nsq.handler topic cf). split; [exact Hh |].
  intros message w scope. split; [| split; [| split; [| split; [| split]]]].
  - rewrite handler_run. simpl. unfold invocations. rewrite omap_app. reflexivity.
  - apply handler_scope_Value.
  - subst scope. rewrite handler_scope_unfold. reflexivity.
  - intros c' w'.
    rewrite (Consume_string c' scope topic (string_of_bytes (gonsq.Body message)) w');
      [reflexivity | apply handler_scope_Value].
  - rewrite handler_run. reflexivity.
  - rewrite handler_run. reflexivity.
Qed.

Lemma registered_handler_hands_over_body_witness :
  nsq.RegisterConsumer reference.client "orders" reference.failing reference.idle
    = (Returns (None, Some reference.registered), reference.idle) /\
  exists h,
    gonsq.consumer_handlers reference.registered = [h] /\
    invocations (trace (snd (h reference.order42 reference.idle)))
      = [(nsq.handler_scope "orders" (bytes_of_string "order-42") 1000, "orders")] /\
    Deadline (nsq.handler_scope "orders" (bytes_of_string "order-42") 1000) = Some 30000001000 /\
    fst (nsq.Consume reference.client
           (nsq.handler_scope "orders" (bytes_of_string "order-42") 1000) "orders" reference.idle)
      = Returns ("order-42", None) /\
    env (snd (h reference.order42 reference.idle)) = env reference.idle /\
    fst (h reference.order42 reference.idle) = Returns None.
Proof.
  assert (Hreg : nsq.RegisterConsumer reference.client "orders" reference.failing reference.idle
                 = (Returns (None, Some reference.registered), reference.idle))
    by reflexivity.
  split; [exact Hreg |].
  destruct (registered_handler_hands_over_body reference.client "orders" reference.failing
              reference.idle reference.idle reference.registered Hreg) as [h [Hh Hrun]].
  exists h. split; [exact Hh |].
  destruct (Hrun reference.order42 reference.idle) as [Hinv [_ [Hd [Hc [Henv Hres]]]]].
  split; [exact Hinv |]. split; [exact Hd |].
  split; [exact (Hc reference.client reference.idle) |].
  split; [exact Henv | exact Hres].
Defined.

(** ** Consume *)

(** C4.  When the scope holds a string under the topic key, [Consume]
    returns that string and a nil error; when it holds nothing there,
    [Consume] returns the empty string and the error "failed to consume the
    topic <topic>", never a value of its own making. *)
Theorem Consume_value_or_failure {Env : Type} `{!gonsq.Broker Env}
  (c : nsq.Client) (ctx : Context) (topic : string) (w : World Env) :
  (forall s, Value ctx (StringKey topic) = VString s ->
     fst (nsq.Consume c ctx topic w) = Returns (s, None)) /\
  (Value ctx (StringKey topic) = VNil ->
     fst (nsq.Consume c ctx topic w)
       = Returns (EmptyString, Some (Error ("failed to consume the topic " ++ topic)))).
Proof.
  split.
  - intros s Hs. rewrite (Consume_string c ctx topic s w Hs). reflexivity.
  - intros Hnil. rewrite (Consume_nil c ctx topic w Hnil). reflexivity.
Qed.

Lemma Consume_value_or_failure_witness :
  fst (nsq.Consume reference.client
         (WithValue Background (StringKey "orders") (VString "order-42")) "orders"
         reference.idle) = Returns ("order-42", None) /\
  fst (nsq.Consume reference.client
         (WithValue Background (StringKey "orders") (VString "order-42")) "payments"
         reference.idle)
    = Returns (EmptyString, Some (Error "failed to consume the topic payments")).
Proof.
  split.
  - exact (proj1 (Consume_value_or_failure reference.client
                    (WithValue Background (StringKey "orders") (VString "order-42"))
                    "orders" reference.idle) "order-42" eq_refl).
  - exact (proj2 (Consume_value_or_failure reference.client
                    (WithValue Background (StringKey "orders") (VString "order-42"))
                    "payments" reference.idle) eq_refl).
Defined.

(** C9.  When the scope holds, under the topic key, a value that is
    neither nil nor a string, [Consume] panics on the type assertion (before
    it logs or returns anything); [Consume] returns exactly when the value
    under the topic key is nil or a string. *)
Theorem Consume_panics_on_non_string {Env : Type} `{!gonsq.Broker Env}
  (c : nsq.Client) (ctx : Context) (topic : string) (w : World Env) :
  (Value ctx (StringKey topic) <> VNil ->
   (forall s, Value ctx (StringKey topic) <> VString s) ->
   nsq.Consume c ctx topic w =
   (Panics ("interface conversion: interface {} is " ++
            type_name (Value ctx (StringKey topic)) ++ ", not string"), w)) /\
  ((exists r, fst (nsq.Consume c ctx topic w) = Returns r) <->
   (Value ctx (StringKey topic) = VNil \/ exists s, Value ctx (StringKey topic) = VString s)).
Proof.
  split.
  - apply Consume_other.
  - split.
    + intros [r Hr].
      destruct (Value ctx (StringKey topic)) eqn:Hv;
        try (left; reflexivity); try (right; eexists; reflexivity);
        rewrite Consume_other in Hr;
        try (rewrite Hv; discriminate); simpl in Hr; discriminate.
    + intros [Hnil | [s Hs]].
      * rewrite (Consume_nil c ctx topic w Hnil). eexists. reflexivity.
      * rewrite (Consume_string c ctx topic s w Hs). eexists. reflexivity.
Qed.

Lemma Consume_panics_on_non_string_witness :
  nsq.Consume reference.client
    (WithValue Background (StringKey "orders") (VInt 42)) "orders" reference.idle
  = (Panics "interface conversion: interface {} is int, not string", reference.idle).
Proof.
  apply (proj1 (Consume_panics_on_non_string reference.client
                  (WithValue Background (StringKey "orders") (VInt 42)) "orders"
                  reference.idle)).
  - simpl. discriminate.
  - intros s. simpl. discriminate.
Defined.

(** ** Publish *)

(** C8.  For a non-nil event, [Publish] is one send of [event.Message] to
    [event.Topic] through the producer handle: with a handle [p], the broker
    is asked once, and what [Publish] returns is what that send returned,
    nil when it succeeded and its error when it failed. *)
Theorem Publish_propagates_send {Env : Type} `{!gonsq.Broker Env}
  (c : nsq.Client) (ctx : Context) (ev : nsq.NsqEvent) (w : World Env) :
  nsq.Publish c ctx (Some ev) w
    = gonsq.Producer_Publish (nsq.Pub c) (nsq.Topic ev) (nsq.Message ev) w /\
  (forall p, nsq.Pub c = Some p ->
     let sent := gonsq.nsqd_publish (gonsq.producer_addr p) (nsq.Topic ev) (nsq.Message ev) (env w) in
     nsq.Publish c ctx (Some ev) w =
     (Returns (fst sent),
      {| env := snd sent;
         trace := trace w ++ [EvPublish (gonsq.producer_addr p) (nsq.Topic ev) (nsq.Message ev)] |})).
Proof.
  split; [reflexivity |].
  intros p Hp sent. subst sent. unfold nsq.Publish, gonsq.Producer_Publish. rewrite Hp.
  destruct (gonsq.nsqd_publish _ _ _ _) as [e env']. reflexivity.
Qed.

Lemma Publish_propagates_send_witness :
  fst (nsq.Publish reference.client Background
         (Some {| nsq.Topic := "orders"; nsq.Message := bytes_of_string "order-42" |})
         reference.unreachable)
    = Returns (Some (Error "dial tcp: connection refused")) /\
  nsq.Publish reference.client Background
    (Some {| nsq.Topic := "orders"; nsq.Message := bytes_of_string "order-42" |})
    reference.idle
    = (Returns None,
       {| env := {| reference.clock := 1000; reference.nsqd_up := true;
                    reference.queued := [("orders", bytes_of_string "order-42")] |};
          trace := [EvPublish "127.0.0.1:4150" "orders" (bytes_of_string "order-42")] |}).
Proof.
  split.
  - rewrite (proj2 (Publish_propagates_send reference.client Background
                      {| nsq.Topic := "orders"; nsq.Message := bytes_of_string "order-42" |}
                      reference.unreachable) _ eq_refl).
    reflexivity.
  - exact (proj2 (Publish_propagates_send reference.client Background
                    {| nsq.Topic := "orders"; nsq.Message := bytes_of_string "order-42" |}
                    reference.idle) _ eq_refl).
Defined.

(** C10.  [Publish] reads the fields of its event without a nil check: for
    a nil event it panics with a nil dereference, and nothing is sent. *)
Theorem Publish_nil_event_panics {Env : Type} `{!gonsq.Broker Env}
  (c : nsq.Client) (ctx : Context) (w : World Env) :
  nsq.Publish c ctx None w = (Panics nil_dereference, w).
Proof. reflexivity. Qed.

(** ** The in-memory stores are stores *)

Lemma memcached_stores : @memcache.stores (gmap string bytes) reference.memcached.
Proof.
  intros c item s s'. simpl. unfold reference.memcached_Set, reference.memcached_Get.
  destruct (reference.legalKey (memcache.Key item)); intros Heq; inversion Heq; subst.
  rewrite lookup_insert_eq. eexists. split; reflexivity.
Qed.

(** ** The cache adapters *)

Section CacheFacts.
Context {S : Type} `{!gojson.Codec}.

(** A successful memcache write stored the JSON text of the value. *)
Lemma memcache_set_stored `{!memcache.Server S} (c : memcache.Client) (key : string)
  (v : GoValue) (s s' : S) :
  memcache.stores ->
  match gojson.Marshal v with
  | inr err => (Some err, s)
  | inl result => memcache.Client_Set c {| memcache.Key := key; memcache.Value := result |} s
  end = (None, s') ->
  exists b item, gojson.Marshal v = inl b /\
    memcache.Client_Get c key s' = inl item /\ memcache.Value item = b.
Proof.
  intros Hstores Hset.
  destruct (gojson.Marshal v) as [b | err]; [| inversion Hset].
  destruct (Hstores c _ s s' Hset) as [item [Hget Hval]].
  exists b, item. simpl in *. auto.
Qed.

End CacheFacts.

(** C2, counterexample.  On the memcache adapter an int does not come
    back as itself: [SetSingle(k, 7)] succeeds, [GetSingle(k)] returns the
    bytes [7], and these deserialize to the float64 7, which is not the
    int 7. *)
Lemma memcache_int_reads_back_as_float64 :
  fst (caches.SetSingle (caches.memcacheCache_as_Cache reference.memcache_adapter)
         Background "k" (VInt 7) (∅ : gmap string bytes)) = None /\
  caches.GetSingle (caches.memcacheCache_as_Cache reference.memcache_adapter) Background "k"
    (snd (caches.SetSingle (caches.memcacheCache_as_Cache reference.memcache_adapter)
            Background "k" (VInt 7) (∅ : gmap string bytes)))
    = (VBytes (bytes_of_string "7"), None) /\
  reference.json_Unmarshal (bytes_of_string "7") = inl (VFloat64 7) /\
  VFloat64 7 <> VInt 7.
Proof.
  split; [vm_compute; reflexivity |]. split; [vm_compute; reflexivity |].
  split; [vm_compute; reflexivity | discriminate].
Qed.

(** C2, as amended.  On the memcache adapter, whose [SetSingle] marshals
    to JSON before it stores: after a successful [SetSingle(k, v)],
    [GetSingle(k)] returns with a nil error exactly the bytes that
    [json.Marshal] gave for [v].  So the result deserializes to a value [w]
    exactly when [w] is what the codec reads [v] back as: to [v] itself for
    a value that is read back as itself, to another value otherwise (the
    float64 7 for the int 7). *)
Theorem memcache_GetSingle_returns_marshalled_bytes {S : Type} `{!gojson.Codec}
  `{!memcache.Server S} (m : caches.memcacheCache) (ctx ctx' : Context) (k : string)
  (v : caches.SingleDataRecord) (s s' : S) :
  memcache.stores ->
  caches.SetSingle (caches.memcacheCache_as_Cache m) ctx k v s = (None, s') ->
  exists b, gojson.Marshal v = inl b /\
            caches.GetSingle (caches.memcacheCache_as_Cache m) ctx' k s' = (VBytes b, None) /\
            (forall w, gojson.Unmarshal b = inl w <-> gojson.reads_back v w).
Proof.
  intros Hstores Hset. simpl in *.
  unfold caches.memcacheCache_SetSingle in Hset. unfold caches.memcacheCache_GetSingle.
  destruct (memcache_set_stored _ _ _ _ _ Hstores Hset) as [b [item [Hm [Hget Hval]]]].
  exists b. split; [exact Hm |]. split.
  - rewrite Hget. simpl. rewrite Hval. reflexivity.
  - intros w. split.
    + intros Hun b' Hb'. rewrite Hm in Hb'. inversion Hb'. subst b'. exact Hun.
    + intros Hback. exact (Hback b Hm).
Qed.

Lemma memcache_GetSingle_returns_marshalled_bytes_witness :
  exists b,
    gojson.Marshal (VMap [("name", VString "a")]) = inl b /\
    caches.GetSingle (caches.NewMemcache "127.0.0.1" "11211") Background "user:1"
      (snd (caches.SetSingle (caches.NewMemcache "127.0.0.1" "11211") Background "user:1"
              (VMap [("name", VString "a")]) (∅ : gmap string bytes)))
      = (VBytes b, None) /\
    gojson.Unmarshal b = inl (VMap [("name", VString "a")]).
Proof.
  destruct (memcache_GetSingle_returns_marshalled_bytes reference.memcache_adapter
              Background Background "user:1" (VMap [("name", VString "a")]) ∅
              (snd (caches.SetSingle (caches.NewMemcache "127.0.0.1" "11211") Background
                      "user:1" (VMap [("name", VString "a")]) (∅ : gmap string bytes)))
              memcached_stores) as [b [Hm [Hget Hiff]]].
  - vm_compute. reflexivity.
  - exists b. split; [exact Hm |]. split; [exact Hget |].
    apply Hiff. intros b' Hb'. vm_compute in Hb'. inversion Hb'. subst b'.
    vm_compute. reflexivity.
Defined.


(** ** GetSingle and deserialization *)

(** C5, counterexample.  On the redis adapter [GetSingle] does not return
    the stored bytes: with the bytes [true] stored under a key (by the
    adapter's own [SetSingle] of the string "true") it returns the boolean
    these bytes decode to, and with the bytes [hello] it returns the
    decoder's error. *)
Lemma redis_GetSingle_not_raw :
  reference.redis_after_set "true" !! "k" = Some (bytes_of_string "true") /\
  caches.redisCache_GetSingle reference.redis_adapter Background "k"
    (reference.redis_after_set "true") = (VBool true, None) /\
  caches.redisCache_GetSingle reference.redis_adapter Background "k"
    (reference.redis_after_set "true") <> (VBytes (bytes_of_string "true"), None) /\
  reference.redis_after_set "hello" !! "k" = Some (bytes_of_string "hello") /\
  (exists err, caches.redisCache_GetSingle reference.redis_adapter Background "k"
                 (reference.redis_after_set "hello") = (VNil, Some err)).
Proof.
  assert (Hget : caches.redisCache_GetSingle reference.redis_adapter Background "k"
                   (reference.redis_after_set "true") = (VBool true, None))
    by (vm_compute; reflexivity).
  split; [vm_compute; reflexivity |]. split; [exact Hget |].
  split; [rewrite Hget; discriminate |].
  split; [vm_compute; reflexivity |].
  eexists. vm_compute. reflexivity.
Qed.

(** C5, as amended.  The redis adapter's [SetSingle] gives the value to the
    client as it is, and its [GetSingle] applies [json.Unmarshal] to the
    string the client returns: the result is the decoded value with a nil
    error, or nil with the decoder's error.  The adapter whose [GetSingle]
    returns the stored bytes as they are is the memcache adapter. *)
Theorem GetSingle_redis_decodes_memcache_raw {S : Type} `{!gojson.Codec}
  `{!memcache.Server S} `{!redis.Server S} (r : caches.redisCache)
  (m : caches.memcacheCache) (ctx : Context) (k : string) (s : S) :
  (forall v, caches.redisCache_SetSingle r ctx k v s
             = redis.Client_Set (caches.redisCache_client r) ctx k v 0 s) /\
  (forall str, redis.Client_Get (caches.redisCache_client r) ctx k s = inl str ->
     caches.redisCache_GetSingle r ctx k s =
     match gojson.Unmarshal (bytes_of_string str) with
     | inl v => (v, None)
     | inr err => (VNil, Some err)
     end) /\
  (forall item, memcache.Client_Get (caches.memcacheCache_client m) k s = inl item ->
     caches.memcacheCache_GetSingle m ctx k s = (VBytes (memcache.Value item), None)).
Proof.
  split; [reflexivity |]. split.
  - intros str Hget. unfold caches.redisCache_GetSingle. rewrite Hget.
    destruct (gojson.Unmarshal (bytes_of_string str)); reflexivity.
  - intros item Hget. unfold caches.memcacheCache_GetSingle. rewrite Hget. reflexivity.
Qed.

Lemma GetSingle_redis_decodes_memcache_raw_witness :
  caches.redisCache_GetSingle reference.redis_adapter Background "k"
    ({["k" := bytes_of_string "[true]"]} : gmap string bytes)
    = (VSlice [VBool true], None) /\
  caches.memcacheCache_GetSingle reference.memcache_adapter Background "k"
    ({["k" := bytes_of_string "[true]"]} : gmap string bytes)
    = (VBytes (bytes_of_string "[true]"), None).
Proof.
  pose proof (GetSingle_redis_decodes_memcache_raw reference.redis_adapter
                reference.memcache_adapter Background "k"
                ({["k" := bytes_of_string "[true]"]} : gmap string bytes))
    as [_ [Hredis Hmem]].
  split.
  - rewrite (Hredis "[true]" eq_refl). vm_compute. reflexivity.
  - exact (Hmem {| memcache.Key := "k"; memcache.Value := bytes_of_string "[true]" |} eq_refl).
Defined.

(** ** The wrapper *)

(** C7.  [NewCache(c)] is a [Cache], and each of its four operations gives
    what the same operation gives on [c]. *)
Theorem NewCache_forwards {S : Type} (c : caches.Cache S) (ctx : Context) (key : string)
  (value : caches.SingleDataRecord) (values : caches.MultipleDataRecord) (s : S) :
  caches.SetSingle (caches.NewCache c) ctx key value s = caches.SetSingle c ctx key value s /\
  caches.GetSingle (caches.NewCache c) ctx key s = caches.GetSingle c ctx key s /\
  caches.SetMultiple (caches.NewCache c) ctx key values s = caches.SetMultiple c ctx key values s /\
  caches.GetMultiple (caches.NewCache c) ctx key s = caches.GetMultiple c ctx key s.
Proof. repeat split. Qed.

(** * Further properties of the code *)

(** ** The handler when the consumer function panics *)

(** X2.  When the consumer function panics, the handler does not recover:
    the panic leaves the handler with the same message, after the one call
    of the function and the deferred cancel of the scope; nothing is logged
    and the message is not requeued. *)
Theorem handler_propagates_panic {Env : Type} `{!gonsq.Broker Env}
  (topic : string) (cf : nsq.ConsumerFunc Env) (message : gonsq.Message)
  (w : World Env) (msg : string) (env' : Env) :
  cf (nsq.handler_scope topic (gonsq.Body message) (gonsq.time_Now (env w))) topic (env w)
    = (Panics msg, env') ->
  nsq.handler topic cf message w =
  (Panics msg,
   {| env := env';
      trace := trace w ++
               [EvInvoke (nsq.handler_scope topic (gonsq.Body message) (gonsq.time_Now (env w))) topic;
                EvCancel (nsq.handler_scope topic (gonsq.Body message) (gonsq.time_Now (env w)))] |}).
Proof. intros Hcf. rewrite handler_run. rewrite Hcf. reflexivity. Qed.

Lemma handler_propagates_panic_witness :
  nsq.handler "orders" scenario.panicking reference.order42 reference.idle =
  (Panics "order rejected",
   {| env := env reference.idle;
      trace := [EvInvoke (nsq.handler_scope "orders" (bytes_of_string "order-42") 1000) "orders";
                EvCancel (nsq.handler_scope "orders" (bytes_of_string "order-42") 1000)] |}).
Proof.
  exact (handler_propagates_panic "orders" scenario.panicking reference.order42
           reference.idle "order rejected" (env reference.idle) eq_refl).
Defined.

(** ** Registration *)

(** X3.  Registration is silent: whatever happens, [RegisterConsumer]
    adds nothing to the trace (it calls no consumer function, sends
    nothing, logs nothing).  It panics inside [nsq.NewConsumer], with the
    world untouched, when the client's configuration is nil or was not made
    by [nsq.NewConfig]; with a configuration from [nsq.NewConfig] it
    returns, and the error it returns is nil exactly when the library
    accepted the topic and the lookupd connection succeeded. *)
Theorem RegisterConsumer_all_or_nothing {Env : Type} `{!gonsq.Broker Env}
  (c : nsq.Client) (topic : string) (cf : nsq.ConsumerFunc Env) (w : World Env) :
  trace (snd (nsq.RegisterConsumer c topic cf w)) = trace w /\
  (nsq.Config c = gonsq.NilConfig ->
   nsq.RegisterConsumer c topic cf w = (Panics nil_dereference, w)) /\
  (nsq.Config c = gonsq.ZeroConfig ->
   nsq.RegisterConsumer c topic cf w
     = (Panics "Config{} must be created with NewConfig()", w)) /\
  (nsq.Config c = gonsq.NewConfig ->
   exists (e : option error) (oc : option (gonsq.Consumer Env)) (w' : World Env),
     nsq.RegisterConsumer c topic cf w = (Returns (e, oc), w') /\
     (e = None <->
      gonsq.NewConsumer_check topic "channel" (nsq.Config c) = None /\
      fst (gonsq.lookupd_connect (nsq.Lookupd c) (env w)) = None)).
Proof.
  rewrite RegisterConsumer_run. split; [| split; [| split]].
  - destruct (gonsq.assertInitialized (nsq.Config c)); [| reflexivity].
    destruct (gonsq.NewConsumer_check topic "channel" (nsq.Config c)); [reflexivity |].
    destruct (gonsq.lookupd_connect (nsq.Lookupd c) (env w)) as [[err | ] env']; reflexivity.
  - intros Hc. rewrite Hc. reflexivity.
  - intros Hc. rewrite Hc. reflexivity.
  - intros Hc. rewrite Hc. simpl.
    destruct (gonsq.NewConsumer_check topic "channel" gonsq.NewConfig) as [err | ].
    + exists (Some err), None, w. split; [reflexivity |].
      split; [discriminate | intros [Hn _]; discriminate].
    + destruct (gonsq.lookupd_connect (nsq.Lookupd c) (env w)) as [[err | ] env'].
      * eexists (Some err), None, _. split; [reflexivity |].
        split; [discriminate | intros [_ Hn]; discriminate].
      * eexists None, (Some _), _. split; [reflexivity |].
        split; [intros _; split; reflexivity | reflexivity].
Qed.

Lemma RegisterConsumer_all_or_nothing_witness :
  nsq.RegisterConsumer scenario.unconfigured "orders" reference.failing reference.idle
    = (Panics nil_dereference, reference.idle) /\
  exists (e : option error) (oc : option (gonsq.Consumer scenario.Outage))
         (w' : World scenario.Outage),
    nsq.RegisterConsumer reference.client "orders" scenario.silent scenario.dark
      = (Returns (e, oc), w') /\
    (e = None <->
     gonsq.NewConsumer_check (Env := scenario.Outage) "orders" "channel"
       (nsq.Config reference.client) = None /\
     fst (gonsq.lookupd_connect (nsq.Lookupd reference.client) (env scenario.dark)) = None).
Proof.
  split.
  - exact (proj1 (proj2 (RegisterConsumer_all_or_nothing scenario.unconfigured "orders"
                           reference.failing reference.idle)) eq_refl).
  - exact (proj2 (proj2 (proj2 (RegisterConsumer_all_or_nothing reference.client "orders"
                                  scenario.silent scenario.dark))) eq_refl).
Defined.

(** X4.  Both failures of a registration reach the caller as they are.
    When [nsq.NewConsumer] refuses the topic, [RegisterConsumer] returns
    that error and the world is untouched: the lookupd is not contacted.
    When [nsq.NewConsumer] gives a consumer and the lookupd connection
    fails, it returns the connection's error and leaves no consumer. *)
Theorem RegisterConsumer_returns_the_failure {Env : Type} `{!gonsq.Broker Env}
  (c : nsq.Client) (topic : string) (cf : nsq.ConsumerFunc Env) (w : World Env)
  (err : error) :
  (gonsq.NewConsumer (Env := Env) topic "channel" (nsq.Config c) = Returns (inr err) ->
   nsq.RegisterConsumer c topic cf w = (Returns (Some err, None), w)) /\
  (forall (made : gonsq.Consumer Env) (env' : Env),
     gonsq.NewConsumer topic "channel" (nsq.Config c) = Returns (inl made) ->
     gonsq.lookupd_connect (nsq.Lookupd c) (env w) = (Some err, env') ->
     nsq.RegisterConsumer c topic cf w
       = (Returns (Some err, None), {| env := env'; trace := trace w |})).
Proof.
  rewrite RegisterConsumer_run. unfold gonsq.NewConsumer.
  destruct (gonsq.assertInitialized (nsq.Config c)) as [u | msg].
  - destruct (gonsq.NewConsumer_check topic "channel" (nsq.Config c)) as [e | ].
    + split.
      * intros Hnew. inversion Hnew. reflexivity.
      * intros made env' Hnew. discriminate.
    + split.
      * intros Hnew. discriminate.
      * intros made env' _ Hconn. rewrite Hconn. reflexivity.
  - split.
    + intros Hnew. discriminate.
    + intros made env' Hnew. discriminate.
Qed.

Lemma RegisterConsumer_returns_the_failure_witness :
  nsq.RegisterConsumer reference.client EmptyString reference.failing reference.idle
    = (Returns (Some (Error "invalid topic name"), None), reference.idle) /\
  nsq.RegisterConsumer reference.client "orders" scenario.silent scenario.dark
    = (Returns (Some scenario.refused, None), scenario.dark).
Proof.
  split.
  - exact (proj1 (RegisterConsumer_returns_the_failure reference.client EmptyString
                    reference.failing reference.idle (Error "invalid topic name")) eq_refl).
  - exact (proj2 (RegisterConsumer_returns_the_failure reference.client "orders"
                    scenario.silent scenario.dark scenario.refused)
                 {| gonsq.consumer_topic := "orders"; gonsq.consumer_channel := "channel";
                    gonsq.consumer_config := gonsq.NewConfig; gonsq.consumer_handlers := [];
                    gonsq.consumer_lookupds := [] |}
                 (env scenario.dark) eq_refl eq_refl).
Defined.

(** X5.  A successful registration leaves a consumer of the given topic in
    the channel named "channel", with the client's configuration, with the
    one handler built from the consumer function, connected to the one
    lookupd address of the client; the world changes only by what the
    connection did. *)
Theorem RegisterConsumer_subscription {Env : Type} `{!gonsq.Broker Env}
  (c : nsq.Client) (topic : string) (cf : nsq.ConsumerFunc Env) (w w' : World Env)
  (consumer : gonsq.Consumer Env) :
  nsq.RegisterConsumer c topic cf w = (Returns (None, Some consumer), w') ->
  consumer = {| gonsq.consumer_topic := topic;
                gonsq.consumer_channel := "channel";
                gonsq.consumer_config := nsq.Config c;
                gonsq.consumer_handlers := [nsq.handler topic cf];
                gonsq.consumer_lookupds := [nsq.Lookupd c] |} /\
  env w' = snd (gonsq.lookupd_connect (nsq.Lookupd c) (env w)).
Proof.
  rewrite RegisterConsumer_run.
  destruct (gonsq.assertInitialized (nsq.Config c)) as [u | msg]; [| discriminate].
  destruct (gonsq.NewConsumer_check topic "channel" (nsq.Config c)) as [err | ];
    [discriminate |].
  destruct (gonsq.lookupd_connect (nsq.Lookupd c) (env w)) as [[err | ] env'];
    intros Heq; inversion Heq; subst; simpl; auto.
Qed.

Lemma RegisterConsumer_subscription_witness :
  reference.registered =
    {| gonsq.consumer_topic := "orders"; gonsq.consumer_channel := "channel";
       gonsq.consumer_config := nsq.Config reference.client;
       gonsq.consumer_handlers := [nsq.handler "orders" reference.failing];
       gonsq.consumer_lookupds := [nsq.Lookupd reference.client] |} /\
  env reference.idle = snd (gonsq.lookupd_connect (nsq.Lookupd reference.client) (env reference.idle)).
Proof.
  assert (Hreg : nsq.RegisterConsumer reference.client "orders" reference.failing reference.idle
                 = (Returns (None, Some reference.registered), reference.idle))
    by reflexivity.
  exact (RegisterConsumer_subscription reference.client "orders" reference.failing
           reference.idle reference.idle reference.registered Hreg).
Defined.

(** ** The client constructor *)

(** X6.  [NewNSQClient] panics on a nil configuration.  On a configuration
    it returns either a client and a nil error or no client and the error of
    [nsq.NewProducer], never both and never neither; the client it returns
    holds a producer for [Host:DTCPPort] and the lookupd address
    [Host:HTTPPort]. *)
Theorem NewNSQClient_client_or_error {Env : Type} `{!gonsq.Broker Env} (config : nsq.NSQConfig) :
  nsq.NewNSQClient (Env := Env) None = Panics nil_dereference /\
  exists (oc : option nsq.Client) (e : option error),
    nsq.NewNSQClient (Env := Env) (Some config) = Returns (oc, e) /\
    (e = None <-> is_Some oc) /\
    e = gonsq.NewProducer_check (Env := Env)
          (nsq.Host config ++ ":" ++ nsq.DTCPPort config) gonsq.NewConfig /\
    (forall c, oc = Some c ->
       nsq.Pub c = Some {| gonsq.producer_addr := nsq.Host config ++ ":" ++ nsq.DTCPPort config;
                           gonsq.producer_config := gonsq.NewConfig |} /\
       nsq.Lookupd c = nsq.Host config ++ ":" ++ nsq.HTTPPort config).
Proof.
  split; [reflexivity |].
  unfold nsq.NewNSQClient, gonsq.NewProducer.
  destruct (gonsq.NewProducer_check _ _) as [err | ].
  - exists None, (Some err). split; [reflexivity |]. split.
    + split; [discriminate | intros [x Hx]; discriminate].
    + split; [reflexivity | intros c Hc; discriminate].
  - eexists (Some _), None. split; [reflexivity |]. split.
    + split; [intros _; eexists; reflexivity | reflexivity].
    + split; [reflexivity |]. intros c Hc. inversion Hc. subst c. split; reflexivity.
Qed.

Lemma NewNSQClient_client_or_error_witness :
  exists (oc : option nsq.Client) (e : option error),
    nsq.NewNSQClient (Env := scenario.Outage) (Some scenario.config) = Returns (oc, e) /\
    (e = None <-> is_Some oc) /\
    e = Some (Error "invalid address") /\
    (forall c, oc = Some c ->
       nsq.Pub c = Some {| gonsq.producer_addr := "127.0.0.1:4150";
                           gonsq.producer_config := gonsq.NewConfig |} /\
       nsq.Lookupd c = "127.0.0.1:4161").
Proof.
  exact (proj2 (NewNSQClient_client_or_error (Env := scenario.Outage) scenario.config)).
Defined.

(** X7.  A client that [NewNSQClient] returned is ready for use: [Publish]
    of a non-nil event through it does not panic, asks the nsqd at
    [Host:DTCPPort] once and returns that send's result; and a consumer
    registered through it is connected to the lookupd at [Host:HTTPPort]. *)
Theorem NewNSQClient_client_is_usable {Env : Type} `{!gonsq.Broker Env}
  (config : nsq.NSQConfig) (c : nsq.Client) :
  nsq.NewNSQClient (Env := Env) (Some config) = Returns (Some c, None) ->
  (forall (ctx : Context) (ev : nsq.NsqEvent) (w : World Env),
     let addr := nsq.Host config ++ ":" ++ nsq.DTCPPort config in
     let sent := gonsq.nsqd_publish addr (nsq.Topic ev) (nsq.Message ev) (env w) in
     nsq.Publish c ctx (Some ev) w =
     (Returns (fst sent),
      {| env := snd sent;
         trace := trace w ++ [EvPublish addr (nsq.Topic ev) (nsq.Message ev)] |})) /\
  (forall (topic : string) (cf : nsq.ConsumerFunc Env) (w w' : World Env)
          (consumer : gonsq.Consumer Env),
     nsq.RegisterConsumer c topic cf w = (Returns (None, Some consumer), w') ->
     gonsq.consumer_lookupds consumer = [nsq.Host config ++ ":" ++ nsq.HTTPPort config]).
Proof.
  unfold nsq.NewNSQClient, gonsq.NewProducer.
  destruct (gonsq.NewProducer_check _ _) as [err | ]; intros Hnew; inversion Hnew; subst c.
  split.
  - intros ctx ev w. unfold nsq.Publish, gonsq.Producer_Publish. simpl.
    destruct (gonsq.nsqd_publish _ _ _ _) as [e env']. reflexivity.
  - intros topic cf w w' consumer Hreg.
    unfold nsq.RegisterConsumer, gonsq.NewConsumer in Hreg. simpl in Hreg.
    destruct (gonsq.NewConsumer_check topic "channel" gonsq.NewConfig) as [err | ].
    + unfold ret in Hreg. inversion Hreg.
    + unfold bind, gonsq.ConnectToNSQLookupd, gonsq.AddHandler, ret in Hreg. simpl in Hreg.
      destruct (gonsq.lookupd_connect _ (env w)) as [[err | ] env'];
        inversion Hreg; subst; reflexivity.
Qed.

Lemma NewNSQClient_client_is_usable_witness :
  nsq.Publish reference.client Background (Some scenario.order) reference.idle =
  (Returns None,
   {| env := {| reference.clock := 1000; reference.nsqd_up := true;
                reference.queued := [("orders", bytes_of_string "order-42")] |};
      trace := [EvPublish "127.0.0.1:4150" "orders" (bytes_of_string "order-42")] |}) /\
  gonsq.consumer_lookupds reference.registered = ["127.0.0.1:4161"].
Proof.
  assert (Hnew : nsq.NewNSQClient (Env := reference.Net) (Some scenario.config)
                 = Returns (Some reference.client, None)) by reflexivity.
  assert (Hreg : nsq.RegisterConsumer reference.client "orders" reference.failing reference.idle
                 = (Returns (None, Some reference.registered), reference.idle))
    by reflexivity.
  destruct (NewNSQClient_client_is_usable scenario.config reference.client Hnew)
    as [Hpub Hcons].
  split.
  - exact (Hpub Background scenario.order reference.idle).
  - exact (Hcons "orders" reference.failing reference.idle reference.idle
             reference.registered Hreg).
Defined.

(** ** More on Consume *)

(** X8.  What [Consume] returns tells what the scope held.  A nil error
    comes only with the string the scope holds under the topic key; an error
    comes only when the scope holds nothing there, and then the string is
    empty and the error is "failed to consume the topic <topic>". *)
Theorem Consume_result_reflects_scope {Env : Type} `{!gonsq.Broker Env}
  (c : nsq.Client) (ctx : Context) (topic : string) (w : World Env)
  (s : string) (e : option error) :
  fst (nsq.Consume c ctx topic w) = Returns (s, e) ->
  (e = None /\ Value ctx (StringKey topic) = VString s) \/
  (e = Some (Error ("failed to consume the topic " ++ topic)) /\ s = EmptyString /\
   Value ctx (StringKey topic) = VNil).
Proof.
  intros Hrun.
  destruct (Value ctx (StringKey topic)) eqn:Hv;
    try (rewrite Consume_other in Hrun;
         [simpl in Hrun; discriminate | rewrite Hv; discriminate |
          intros s'; rewrite Hv; discriminate]).
  - rewrite (Consume_nil c ctx topic w Hv) in Hrun. simpl in Hrun. inversion Hrun. auto.
  - rewrite (Consume_string c ctx topic s0 w Hv) in Hrun. simpl in Hrun. inversion Hrun. auto.
Qed.

Lemma Consume_result_reflects_scope_witness :
  (@None error = None /\
   Value (WithValue Background (StringKey "orders") (VString EmptyString)) (StringKey "orders")
     = VString EmptyString) \/
  (None = Some (Error "failed to consume the topic orders") /\ EmptyString = EmptyString /\
   Value (WithValue Background (StringKey "orders") (VString EmptyString)) (StringKey "orders")
     = VNil).
Proof.
  exact (Consume_result_reflects_scope reference.client
           (WithValue Background (StringKey "orders") (VString EmptyString)) "orders"
           reference.idle EmptyString None eq_refl).
Defined.

(** X9.  [Consume] is a read: it leaves the outside world as it was, and
    adds to the trace one log line when it returns and nothing when it
    panics. *)
Theorem Consume_only_logs {Env : Type} `{!gonsq.Broker Env}
  (c : nsq.Client) (ctx : Context) (topic : string) (w : World Env) :
  env (snd (nsq.Consume c ctx topic w)) = env w /\
  match fst (nsq.Consume c ctx topic w) with
  | Returns _ =>
      exists line, trace (snd (nsq.Consume c ctx topic w)) = (trace w ++ [EvLog line])%list
  | Panics _ => trace (snd (nsq.Consume c ctx topic w)) = trace w
  end.
Proof.
  destruct (Value ctx (StringKey topic)) eqn:Hv;
    try (rewrite Consume_other;
         [split; reflexivity | rewrite Hv; discriminate | intros s'; rewrite Hv; discriminate]).
  - rewrite (Consume_nil c ctx topic w Hv). simpl. split; [reflexivity |]. eexists. reflexivity.
  - rewrite (Consume_string c ctx topic s w Hv). simpl. split; [reflexivity |].
    eexists. reflexivity.
Qed.

(** X10.  Inside a handler run for one topic only that topic can be
    consumed: on the scope the handler builds, [Consume] of any other topic
    returns the empty string and the error "failed to consume the topic
    <other>". *)
Theorem handler_scope_serves_its_topic_only {Env : Type} `{!gonsq.Broker Env}
  (c : nsq.Client) (topic other : string) (body : bytes) (t : Z) (w : World Env) :
  other <> topic ->
  fst (nsq.Consume c (nsq.handler_scope topic body t) other w)
    = Returns (EmptyString, Some (Error ("failed to consume the topic " ++ other))).
Proof.
  intros Hne. rewrite Consume_nil; [reflexivity |].
  rewrite handler_scope_unfold. simpl.
  destruct (decide (StringKey topic = StringKey other)) as [Heq | _]; [| reflexivity].
  inversion Heq. congruence.
Qed.

Lemma handler_scope_serves_its_topic_only_witness :
  fst (nsq.Consume reference.client
         (nsq.handler_scope "orders" (bytes_of_string "order-42") 1000) "payments" reference.idle)
    = Returns (EmptyString, Some (Error "failed to consume the topic payments")).
Proof.
  apply (handler_scope_serves_its_topic_only reference.client "orders" "payments"
           (bytes_of_string "order-42") 1000 reference.idle).
  discriminate.
Defined.

(** ** The cache getters *)

Lemma redisd_stores : @redis.stores (gmap string bytes) reference.redisd.
Proof.
  intros c ctx ctx' key v ttl s s'. simpl. unfold reference.redisd_Set, reference.redisd_Get.
  destruct (redis.WriteArg v) as [b | err]; intros Heq; inversion Heq; subst.
  exists b. rewrite lookup_insert_eq. split; reflexivity.
Qed.

(** X11.  The getters fail closed: on every backend, when [GetSingle]
    returns an error its result is nil, and when [GetMultiple] returns an
    error its result is the nil sequence; no partly decoded data comes with
    an error. *)
Theorem getters_fail_closed {S : Type} `{!gojson.Codec} `{!memcache.Server S}
  `{!redis.Server S} (b : caches.backend) (ctx : Context) (k : string) (s : S) (e : error) :
  (forall r, caches.GetSingle (caches.adapter b) ctx k s = (r, Some e) -> r = VNil) /\
  (forall rs, caches.GetMultiple (caches.adapter b) ctx k s = (rs, Some e) -> rs = []).
Proof.
  destruct b as [m | r]; simpl; split.
  - intros x. unfold caches.memcacheCache_GetSingle.
    destruct (memcache.Client_Get _ k s); intros Heq; inversion Heq; reflexivity.
  - intros xs. unfold caches.memcacheCache_GetMultiple.
    destruct (memcache.Client_Get _ k s) as [item | err]; [| intros Heq; inversion Heq; reflexivity].
    simpl. destruct (gojson.Unmarshal_slice _); intros Heq; inversion Heq; reflexivity.
  - intros x. unfold caches.redisCache_GetSingle.
    destruct (redis.Client_Get _ ctx k s) as [str | err]; [| intros Heq; inversion Heq; reflexivity].
    destruct (gojson.Unmarshal _); intros Heq; inversion Heq; reflexivity.
  - intros xs. unfold caches.redisCache_GetMultiple.
    destruct (redis.Client_Get _ ctx k s) as [str | err]; [| intros Heq; inversion Heq; reflexivity].
    destruct (gojson.Unmarshal_slice _); intros Heq; inversion Heq; reflexivity.
Qed.

Lemma getters_fail_closed_witness :
  fst (caches.GetSingle (caches.adapter (S := gmap string bytes)
                           (caches.Redis reference.redis_adapter))
         Background "k" (reference.redis_after_set "hello")) = VNil /\
  fst (caches.GetMultiple (caches.adapter (S := gmap string bytes)
                             (caches.Memcache reference.memcache_adapter))
         Background "k" ({["k" := bytes_of_string "true"]} : gmap string bytes)) = [].
Proof.
  split.
  - apply (proj1 (getters_fail_closed (caches.Redis reference.redis_adapter) Background "k"
                    (reference.redis_after_set "hello") (Error "json: invalid document"))).
    vm_compute. reflexivity.
  - apply (proj2 (getters_fail_closed (caches.Memcache reference.memcache_adapter)
                    Background "k" ({["k" := bytes_of_string "true"]} : gmap string bytes)
                    (Error "json: cannot unmarshal bool into Go value of type caches.MultipleDataRecord"))).
    vm_compute. reflexivity.
Defined.

(** X12.  A read that the client refuses (for one, a key that is not in
    the store) is reported with the client's own error: on both adapters
    [GetSingle] returns nil and that error, [GetMultiple] the nil sequence
    and that error; nothing is decoded. *)
Theorem getters_return_client_error {S : Type} `{!gojson.Codec} `{!memcache.Server S}
  `{!redis.Server S} (m : caches.memcacheCache) (r : caches.redisCache)
  (ctx : Context) (k : string) (s : S) (err : error) :
  (memcache.Client_Get (caches.memcacheCache_client m) k s = inr err ->
   caches.memcacheCache_GetSingle m ctx k s = (VNil, Some err) /\
   caches.memcacheCache_GetMultiple m ctx k s = ([], Some err)) /\
  (redis.Client_Get (caches.redisCache_client r) ctx k s = inr err ->
   caches.redisCache_GetSingle r ctx k s = (VNil, Some err) /\
   caches.redisCache_GetMultiple r ctx k s = ([], Some err)).
Proof.
  split; intros Hget.
  - unfold caches.memcacheCache_GetSingle, caches.memcacheCache_GetMultiple.
    rewrite Hget. split; reflexivity.
  - unfold caches.redisCache_GetSingle, caches.redisCache_GetMultiple.
    rewrite Hget. split; reflexivity.
Qed.

Lemma getters_return_client_error_witness :
  (caches.memcacheCache_GetSingle reference.memcache_adapter Background "user:1"
     (∅ : gmap string bytes) = (VNil, Some reference.ErrCacheMiss) /\
   caches.memcacheCache_GetMultiple reference.memcache_adapter Background "user:1"
     (∅ : gmap string bytes) = ([], Some reference.ErrCacheMiss)) /\
  (caches.redisCache_GetSingle reference.redis_adapter Background "user:1"
     (∅ : gmap string bytes) = (VNil, Some reference.redis_Nil) /\
   caches.redisCache_GetMultiple reference.redis_adapter Background "user:1"
     (∅ : gmap string bytes) = ([], Some reference.redis_Nil)).
Proof.
  split.
  - exact (proj1 (getters_return_client_error reference.memcache_adapter
                    reference.redis_adapter Background "user:1" (∅ : gmap string bytes)
                    reference.ErrCacheMiss) eq_refl).
  - exact (proj2 (getters_return_client_error reference.memcache_adapter
                    reference.redis_adapter Background "user:1" (∅ : gmap string bytes)
                    reference.redis_Nil) eq_refl).
Defined.

(** X13.  Stored bytes that do not decode are reported with the decoder's
    error by the three getters that decode: redis [GetSingle], redis
    [GetMultiple] and memcache [GetMultiple] return a nil result and that
    error.  Memcache [GetSingle] decodes nothing and returns the same bytes
    with a nil error. *)
Theorem getters_return_decode_error {S : Type} `{!gojson.Codec} `{!memcache.Server S}
  `{!redis.Server S} (m : caches.memcacheCache) (r : caches.redisCache)
  (ctx : Context) (k : string) (s : S) (derr : error) :
  (forall str, redis.Client_Get (caches.redisCache_client r) ctx k s = inl str ->
     gojson.Unmarshal (bytes_of_string str) = inr derr ->
     caches.redisCache_GetSingle r ctx k s = (VNil, Some derr)) /\
  (forall str, redis.Client_Get (caches.redisCache_client r) ctx k s = inl str ->
     gojson.Unmarshal_slice (bytes_of_string str) = inr derr ->
     caches.redisCache_GetMultiple r ctx k s = ([], Some derr)) /\
  (forall item, memcache.Client_Get (caches.memcacheCache_client m) k s = inl item ->
     gojson.Unmarshal_slice (memcache.Value item) = inr derr ->
     caches.memcacheCache_GetMultiple m ctx k s = ([], Some derr) /\
     caches.memcacheCache_GetSingle m ctx k s = (VBytes (memcache.Value item), None)).
Proof.
  split; [| split].
  - intros str Hget Hdec. unfold caches.redisCache_GetSingle. rewrite Hget, Hdec. reflexivity.
  - intros str Hget Hdec. unfold caches.redisCache_GetMultiple. rewrite Hget, Hdec. reflexivity.
  - intros item Hget Hdec.
    unfold caches.memcacheCache_GetMultiple, caches.memcacheCache_GetSingle.
    rewrite Hget. simpl. rewrite Hdec. split; reflexivity.
Qed.

Lemma getters_return_decode_error_witness :
  caches.redisCache_GetSingle reference.redis_adapter Background "k"
    ({["k" := bytes_of_string "hello"]} : gmap string bytes)
    = (VNil, Some (Error "json: invalid document")) /\
  caches.redisCache_GetMultiple reference.redis_adapter Background "k"
    ({["k" := bytes_of_string "hello"]} : gmap string bytes)
    = ([], Some (Error "json: invalid document")) /\
  caches.memcacheCache_GetMultiple reference.memcache_adapter Background "k"
    ({["k" := bytes_of_string "hello"]} : gmap string bytes)
    = ([], Some (Error "json: invalid document")) /\
  caches.memcacheCache_GetSingle reference.memcache_adapter Background "k"
    ({["k" := bytes_of_string "hello"]} : gmap string bytes)
    = (VBytes (bytes_of_string "hello"), None).
Proof.
  pose proof (getters_return_decode_error reference.memcache_adapter reference.redis_adapter
                Background "k" ({["k" := bytes_of_string "hello"]} : gmap string bytes)
                (Error "json: invalid document")) as [Hrs [Hrm Hmm]].
  split; [exact (Hrs "hello" eq_refl eq_refl) |].
  split; [exact (Hrm "hello" eq_refl eq_refl) |].
  exact (Hmm {| memcache.Key := "k"; memcache.Value := bytes_of_string "hello" |}
           eq_refl eq_refl).
Defined.

(** ** The cache setters *)

(** X14.  A value that does not marshal is not written: the memcache
    adapter's [SetSingle] and [SetMultiple] return the marshalling error and
    leave the store as it was, so what was under the key before is still
    read afterwards. *)
Theorem memcache_set_marshal_failure_keeps_store {S : Type} `{!gojson.Codec}
  `{!memcache.Server S} (m : caches.memcacheCache) (ctx : Context) (k : string) (s : S)
  (err : error) :
  (forall v, gojson.Marshal v = inr err ->
     caches.memcacheCache_SetSingle m ctx k v s = (Some err, s)) /\
  (forall seq, gojson.Marshal (VSlice seq) = inr err ->
     caches.memcacheCache_SetMultiple m ctx k seq s = (Some err, s)).
Proof.
  split.
  - intros v Hm. unfold caches.memcacheCache_SetSingle. rewrite Hm. reflexivity.
  - intros seq Hm. unfold caches.memcacheCache_SetMultiple. rewrite Hm. reflexivity.
Qed.

Lemma memcache_set_marshal_failure_keeps_store_witness :
  caches.memcacheCache_SetSingle reference.memcache_adapter Background "k" VChan
    ({["k" := bytes_of_string "true"]} : gmap string bytes)
    = (Some (Error "json: unsupported type: chan int"), {["k" := bytes_of_string "true"]}) /\
  caches.memcacheCache_SetMultiple reference.memcache_adapter Background "k"
    [VBool true; VChan] ({["k" := bytes_of_string "true"]} : gmap string bytes)
    = (Some (Error "json: unsupported type: chan int"), {["k" := bytes_of_string "true"]}).
Proof.
  split.
  - exact (proj1 (memcache_set_marshal_failure_keeps_store reference.memcache_adapter
                    Background "k" ({["k" := bytes_of_string "true"]} : gmap string bytes)
                    (Error "json: unsupported type: chan int"))
                 VChan eq_refl).
  - exact (proj2 (memcache_set_marshal_failure_keeps_store reference.memcache_adapter
                    Background "k" ({["k" := bytes_of_string "true"]} : gmap string bytes)
                    (Error "json: unsupported type: chan int"))
                 [VBool true; VChan] eq_refl).
Defined.

(** ** Round trips on redis *)



(** X17.  On the redis adapter bytes are read back as the JSON document
    they hold: after a successful [SetSingle(k, b)] of a [[]byte] [b],
    [GetSingle(k)] returns what [json.Unmarshal] gives for [b], and
    [GetMultiple(k)] what [json.Unmarshal] into a sequence gives for [b]:
    the decoded value with a nil error, or a nil result with the decoder's
    error.  This is how a sequence gets through this adapter: written as
    the bytes of its JSON text. *)
Theorem redis_bytes_are_read_as_JSON {S : Type} `{!gojson.Codec} `{!redis.Server S}
  (r : caches.redisCache) (ctx ctx' : Context) (k : string) (b : bytes) (s s' : S) :
  redis.stores ->
  caches.redisCache_SetSingle r ctx k (VBytes b) s = (None, s') ->
  caches.redisCache_GetSingle r ctx' k s' =
    match gojson.Unmarshal b with
    | inl x => (x, None)
    | inr err => (VNil, Some err)
    end /\
  caches.redisCache_GetMultiple r ctx' k s' =
    match gojson.Unmarshal_slice b with
    | inl xs => (xs, None)
    | inr err => ([], Some err)
    end.
Proof.
  intros Hstores Hset. unfold caches.redisCache_SetSingle in Hset.
  destruct (Hstores _ _ ctx' _ _ _ _ _ Hset) as [b' [Hb Hget]].
  simpl in Hb. inversion Hb. subst b'.
  unfold caches.redisCache_GetSingle, caches.redisCache_GetMultiple. rewrite Hget.
  unfold string_of_bytes, bytes_of_string. rewrite list_byte_of_string_of_list_byte.
  split.
  - destruct (gojson.Unmarshal b); reflexivity.
  - destruct (gojson.Unmarshal_slice b); reflexivity.
Qed.

Lemma redis_bytes_are_read_as_JSON_witness :
  gojson.Marshal (VSlice [VInt 7; VBool true]) = inl (bytes_of_string "[7,true]") /\
  caches.redisCache_GetSingle reference.redis_adapter Background "k"
    (snd (caches.redisCache_SetSingle reference.redis_adapter Background "k"
            (VBytes (bytes_of_string "[7,true]")) (∅ : gmap string bytes)))
    = (VSlice [VFloat64 7; VBool true], None) /\
  caches.redisCache_GetMultiple reference.redis_adapter Background "k"
    (snd (caches.redisCache_SetSingle reference.redis_adapter Background "k"
            (VBytes (bytes_of_string "[7,true]")) (∅ : gmap string bytes)))
    = ([VFloat64 7; VBool true], None).
Proof.
  split; [vm_compute; reflexivity |].
  assert (Hset : caches.redisCache_SetSingle reference.redis_adapter Background "k"
                   (VBytes (bytes_of_string "[7,true]")) (∅ : gmap string bytes)
                 = (None, snd (caches.redisCache_SetSingle reference.redis_adapter Background
                                 "k" (VBytes (bytes_of_string "[7,true]"))
                                 (∅ : gmap string bytes))))
    by reflexivity.
  destruct (redis_bytes_are_read_as_JSON reference.redis_adapter Background Background
              "k" (bytes_of_string "[7,true]") ∅ _ redisd_stores Hset) as [Hone Hmany].
  split.
  - rewrite Hone. vm_compute. reflexivity.
  - rewrite Hmany. vm_compute. reflexivity.
Defined.

(** ** Single and multiple records under one key *)

(** X18.  On the memcache adapter a single record is read as a multiple
    record through its JSON text: after a successful [SetSingle(k, v)],
    [GetMultiple(k)] decodes the bytes [json.Marshal] gave for [v], and
    with [w] the value these bytes decode to it returns the elements of [w]
    when [w] is a slice, the nil sequence when [w] is nil, and for any other
    [w] a nil sequence with a type error that names the JSON kind of [w].
    So the int 7 gives a type error for a number, and the sequence holding
    the int 7 comes back as the sequence holding the float64 7. *)
Theorem memcache_SetSingle_then_GetMultiple {S : Type} `{!gojson.Codec}
  `{!memcache.Server S} (m : caches.memcacheCache) (ctx ctx' : Context) (k : string)
  (v : caches.SingleDataRecord) (s s' : S) :
  memcache.stores ->
  caches.memcacheCache_SetSingle m ctx k v s = (None, s') ->
  exists b, gojson.Marshal v = inl b /\
    forall w, gojson.Unmarshal b = inl w ->
      caches.memcacheCache_GetMultiple m ctx' k s' =
      match w with
      | VSlice l => (l, None)
      | VNil => ([], None)
      | _ => ([], Some (Error ("json: cannot unmarshal " ++ gojson.kind w ++
                               " into Go value of type caches.MultipleDataRecord")))
      end.
Proof.
  intros Hstores Hset. unfold caches.memcacheCache_SetSingle in Hset.
  destruct (memcache_set_stored _ _ _ _ _ Hstores Hset) as [b [item [Hm [Hget Hval]]]].
  exists b. split; [exact Hm |]. intros w Hun.
  unfold caches.memcacheCache_GetMultiple. rewrite Hget. simpl. rewrite Hval.
  unfold gojson.Unmarshal_slice. rewrite Hun.
  destruct w; reflexivity.
Qed.

Lemma memcache_SetSingle_then_GetMultiple_witness :
  caches.memcacheCache_GetMultiple reference.memcache_adapter Background "k"
    (snd (caches.memcacheCache_SetSingle reference.memcache_adapter Background "k"
            (VInt 7) (∅ : gmap string bytes)))
  = ([], Some (Error "json: cannot unmarshal number into Go value of type caches.MultipleDataRecord")) /\
  caches.memcacheCache_GetMultiple reference.memcache_adapter Background "k"
    (snd (caches.memcacheCache_SetSingle reference.memcache_adapter Background "k"
            (VSlice [VInt 7]) (∅ : gmap string bytes)))
  = ([VFloat64 7], None).
Proof.
  assert (Hint : caches.memcacheCache_SetSingle reference.memcache_adapter Background "k"
                   (VInt 7) (∅ : gmap string bytes)
                 = (None, snd (caches.memcacheCache_SetSingle reference.memcache_adapter
                                 Background "k" (VInt 7) (∅ : gmap string bytes))))
    by (vm_compute; reflexivity).
  assert (Hseq : caches.memcacheCache_SetSingle reference.memcache_adapter Background "k"
                   (VSlice [VInt 7]) (∅ : gmap string bytes)
                 = (None, snd (caches.memcacheCache_SetSingle reference.memcache_adapter
                                 Background "k" (VSlice [VInt 7]) (∅ : gmap string bytes))))
    by (vm_compute; reflexivity).
  split.
  - destruct (memcache_SetSingle_then_GetMultiple reference.memcache_adapter Background
                Background "k" (VInt 7) ∅ _ memcached_stores Hint) as [b [Hm Hget]].
    vm_compute in Hm. inversion Hm. subst b.
    exact (Hget (VFloat64 7) eq_refl).
  - destruct (memcache_SetSingle_then_GetMultiple reference.memcache_adapter Background
                Background "k" (VSlice [VInt 7]) ∅ _ memcached_stores Hseq) as [b [Hm Hget]].
    vm_compute in Hm. inversion Hm. subst b.
    exact (Hget (VSlice [VFloat64 7]) eq_refl).
Defined.

(** ** What the code never consults *)

(** X19.  The memcache adapter never looks at the context it is given:
    each of its four operations gives the same result under any two
    contexts, so a cancelled or expired context does not stop a memcache
    read or write. *)
Theorem memcache_adapter_ignores_context {S : Type} `{!gojson.Codec} `{!memcache.Server S}
  (m : caches.memcacheCache) (ctx ctx' : Context) (k : string)
  (v : caches.SingleDataRecord) (seq : caches.MultipleDataRecord) (s : S) :
  caches.SetSingle (caches.memcacheCache_as_Cache m) ctx k v s
    = caches.SetSingle (caches.memcacheCache_as_Cache m) ctx' k v s /\
  caches.GetSingle (caches.memcacheCache_as_Cache m) ctx k s
    = caches.GetSingle (caches.memcacheCache_as_Cache m) ctx' k s /\
  caches.SetMultiple (caches.memcacheCache_as_Cache m) ctx k seq s
    = caches.SetMultiple (caches.memcacheCache_as_Cache m) ctx' k seq s /\
  caches.GetMultiple (caches.memcacheCache_as_Cache m) ctx k s
    = caches.GetMultiple (caches.memcacheCache_as_Cache m) ctx' k s.
Proof. repeat split. Qed.
